(* ====================================================================== *)
(*  Tab-autocomplete orchestrator                                         *)
(*  extensions/vscode/src/autocomplete/getTabCompletion.ts                *)
(*                                                                        *)
(*  A shallow embedding of [getTabCompletion]: the end-of-line filter,    *)
(*  the context and prompt construction, the cache probe, the stream      *)
(*  pipeline under cancellation, the post-processing and the error        *)
(*  boundary.  Effects (cache, error set, pending stream, host calls)     *)
(*  are threaded through a state-and-exception monad that also records    *)
(*  the calls made to the host.                                           *)
(* ====================================================================== *)

From Stdlib Require Import ZArith QArith Lia Bool Ascii String.
From stdpp Require Import base list strings gmap.

Local Open Scope string_scope.
Local Open Scope list_scope.

(* ---------------------------------------------------------------------- *)
(** * JavaScript strings                                                   *)
(* ---------------------------------------------------------------------- *)

(** Text is a sequence of code units; the development keeps to the code
    units below 256, which is what [string] holds. *)
Module Js.

Definition LF : string := String "010"%char "".

(** The code units removed by [String.prototype.trim] (WhiteSpace and
    LineTerminator of ECMAScript) among those below 256: TAB, LF, VT,
    FF, CR, SP and NBSP. *)
Definition isWhiteSpace (c : ascii) : bool :=
  let n := nat_of_ascii c in
  (Nat.leb 9 n && Nat.leb n 13) || Nat.eqb n 32 || Nat.eqb n 160.

(** [s ? ... : ...] and [if (s)] on a string: the empty string is falsy. *)
Definition truthy (s : string) : bool :=
  match s with "" => false | String _ _ => true end.

Fixpoint trimStart (s : string) : string :=
  match s with
  | "" => ""
  | String c r => if isWhiteSpace c then trimStart r else s
  end.

Fixpoint trimEnd (s : string) : string :=
  match s with
  | "" => ""
  | String c r =>
      let r' := trimEnd r in
      if isWhiteSpace c && negb (truthy r') then "" else String c r'
  end.

Definition trim (s : string) : string := trimStart (trimEnd s).

(** [s.startsWith(p)] *)
Definition startsWith (s p : string) : bool := String.prefix p s.

(** [s.endsWith(p)]: [p] is compared with the last [p.length] code units
    of [s]; false when [p] is longer than [s]. *)
Definition endsWith (s p : string) : bool :=
  let n := String.length s in
  let m := String.length p in
  Nat.leb m n && String.eqb (String.substring (n - m) m s) p.

(** [a || b] on an optional array: an array, even empty, is truthy. *)
Definition orElse {A} (a : option (list A)) (b : list A) : list A :=
  match a with Some l => l | None => b end.

(** [Number.MAX_SAFE_INTEGER] *)
Definition MAX_SAFE_INTEGER : Z := 2 ^ 53 - 1.

(** [acc += u] for every [u], in order. *)
Definition concat (l : list string) : string :=
  fold_right String.append "" l.

End Js.

(* ---------------------------------------------------------------------- *)
(** * Data model                                                           *)
(* ---------------------------------------------------------------------- *)

(** The fields of the language record that [getTabCompletion] reads
    ([lang.endOfLine], [lang.stopWords]). *)
Record Language := mkLanguage {
  endOfLine : list string;
  stopWords : list string
}.

(** [vscode.Position] *)
Record Position := mkPosition {
  line : Z;
  character : Z
}.

(** [vscode.TextDocument], by the members the function calls:
    [lineAt n] is [document.lineAt(n).text] and [getText a b] is
    [document.getText(new vscode.Range(a, b))]. *)
Record TextDocument := mkTextDocument {
  fileName : string;
  uriFsPath : string;
  uriToString : string;
  lineCount : Z;
  lineAt : Z -> string;
  getText : Position -> Position -> string
}.

(** [options.multilineCompletions] *)
Inductive Multiline := always | never | auto.

Definition Multiline_eqb (a b : Multiline) : bool :=
  match a, b with
  | always, always | never, never | auto, auto => true
  | _, _ => false
  end.

(** [TabAutocompleteOptions], by the fields read here; the whole record is
    also handed to [constructAutocompletePrompt]. *)
Record TabAutocompleteOptions := mkOptions {
  multilineCompletions : Multiline;
  template : option string
}.

(** Completion options: the three fields the call site sets and the
    remaining properties, kept as they are. [None] is a property that is
    not present on the object. *)
Record CompletionOptions := mkCompletionOptions {
  temperature : option Q;
  raw : option bool;
  stop : option (list string);
  others : list (string * string)
}.

(** The object literal [{}]. *)
Definition emptyObject : CompletionOptions :=
  {| temperature := None; raw := None; stop := None; others := [] |}.

(** [{...o}]: spreading [undefined] contributes no property. *)
Definition spread (o : option CompletionOptions) : CompletionOptions :=
  match o with Some c => c | None => emptyObject end.

(** What an async generator of text deltas does when it is iterated to
    the end: it yields [deltas] and then either finishes or throws an
    error whose message is [failure]. *)
Record RawStream := mkRawStream {
  deltas : list string;
  failure : option string
}.

(** The model handle: [llm.providerName], [llm.model],
    [llm instanceof OpenAI] and [llm.streamComplete(prompt, options)]. *)
Record LLM := mkLLM {
  providerName : string;
  model : string;
  instanceofOpenAI : bool;
  streamComplete : string -> CompletionOptions -> RawStream
}.

Module AutocompleteOutcome.
(** [AutocompleteOutcome] as the function builds it
    ([accepted] is left unset). *)
Record t := mk {
  time : Z;
  completion : string;
  prompt : string;
  modelProvider : string;
  modelName : string;
  completionOptions : option CompletionOptions;
  cacheHit : bool
}.
End AutocompleteOutcome.

(** [null] and [undefined], the two values no property can be read of. *)
Inductive Nullish := JsNull | JsUndefined.

(** The result of awaiting a call that may reject, and of a block that
    may throw. [Throw m] is a throw of a value whose [message] reads as
    the string [m], an [Error] above all; [ThrowNullish v] is a throw of
    [null] or of [undefined], as in [throw null] or [Promise.reject()],
    the values whose [message] cannot be read. *)
Inductive Res (A : Type) : Type :=
| Ok (a : A)
| Throw (message : string)
| ThrowNullish (v : Nullish).
Arguments Ok {A} a.
Arguments Throw {A} message.
Arguments ThrowNullish {A} v.

(** What a [catch (e)] clause binds. *)
Inductive Caught :=
| CaughtError (message : string)
| CaughtNullish (v : Nullish).

(** The value as [console.warn] prints it. *)
Definition printed (e : Caught) : string :=
  match e with
  | CaughtError m => m
  | CaughtNullish JsNull => "null"
  | CaughtNullish JsUndefined => "undefined"
  end.

(** The message of the [TypeError] that reading [e.message] throws when
    [e] is [null] or [undefined], in V8's wording. *)
Definition cannotReadMessage (v : Nullish) : string :=
  "Cannot read properties of "
  +:+ match v with JsNull => "null" | JsUndefined => "undefined" end
  +:+ " (reading 'message')".

(** A promise seen from a race: it settles [t] milliseconds after the race
    starts, or it is still pending when the call ends. *)
Inductive Promise (A : Type) : Type :=
| SettlesAt (t : nat) (r : Res A)
| Pending.
Arguments SettlesAt {A} t r.
Arguments Pending {A}.

(** [Promise.race([p, new Promise(resolve => setTimeout(() =>
    resolve(fallback), ms))])]. [tie] says whether [p] is delivered first
    when it settles in the very millisecond the timer fires. *)
Definition raceTimeout {A} (p : Promise A) (ms : nat) (tie : bool)
    (fallback : A) : Res A :=
  match p with
  | SettlesAt t r =>
      if Nat.ltb t ms || (Nat.eqb t ms && tie) then r else Ok fallback
  | Pending => Ok fallback
  end.

(** The calls made to the host, in the order they are made. *)
Inductive Event :=
| EvModelGet
| EvUseLegacyCompletionsEndpoint
| EvClipboardReadText
| EvGetDefinitionsFromLsp (fsPath fullText : string) (offset : nat)
| EvCacheGet (key : string)
| EvSetupStatusBar (enabled loading : bool)
| EvStreamComplete (prompt : string) (options : CompletionOptions)
| EvStopStatusBarLoading
| EvConsoleWarn (printedValue : string)
| EvShowErrorMessage (message item : string)
| EvOpenExternal (url : string).

(* ---------------------------------------------------------------------- *)
(** * Stream transforms                                                    *)
(* ---------------------------------------------------------------------- *)

(** An async generator function that iterates one upstream generator with
    [for await] and yields strings: [tstep s u] is what it yields on
    receiving [u] in state [s], with the next state, or [None] when it
    returns (it stops pulling its upstream); [tflush s] is what it yields
    once the upstream is exhausted. *)
Record Transform := mkTransform {
  tstate : Type;
  tinit : tstate;
  tstep : tstate -> string -> list string * option tstate;
  tflush : tstate -> list string
}.

(** Feeding a transform a run of upstream items, one pull at a time. *)
Fixpoint feed (T : Transform) (s : tstate T) (us : list string)
    : list string * option (tstate T) :=
  match us with
  | [] => ([], Some s)
  | u :: us' =>
      match tstep T s u with
      | (o, Some s') => let (o', r) := feed T s' us' in (o ++ o', r)
      | (o, None) => (o, None)
      end
  end.

(** Everything the generator yields from state [s] on, when iterated to
    the end, for an upstream that yields [us]. *)
Definition yields (P : Transform) (s : tstate P) (us : list string)
    : list string :=
  match feed P s us with
  | (o, Some s') => o ++ tflush P s'
  | (o, None) => o
  end.

(** Everything the generator [T(upstream)] yields. *)
Definition runT (T : Transform) (us : list string) : list string :=
  yields T (tinit T) us.

(** [B(A(upstream))]: [B] pulls [A], [A] pulls the upstream. When [B]
    returns nothing is pulled any more; when [A] returns [B] sees its
    upstream exhausted. *)
Definition pipe (A B : Transform) : Transform :=
  {| tstate := tstate A * tstate B;
     tinit := (tinit A, tinit B);
     tstep := fun '(a, b) u =>
       let (oa, ra) := tstep A a u in
       match feed B b oa, ra with
       | (ob, None), _ => (ob, None)
       | (ob, Some b'), Some a' => (ob, Some (a', b'))
       | (ob, Some b'), None => (ob ++ tflush B b', None)
       end;
     tflush := fun '(a, b) =>
       match feed B b (tflush A a) with
       | (ob, Some b') => ob ++ tflush B b'
       | (ob, None) => ob
       end |}.

(* ---------------------------------------------------------------------- *)
(** * Process-wide state                                                   *)
(* ---------------------------------------------------------------------- *)

(** Modelled from the spec: the completion cache [AutocompleteLruCache]
    (core/autocomplete/cache is not part of the sources at hand). A
    bounded store from rendered prompt to completion text, most recently
    used entry first. *)
Record Cache := mkCache {
  capacity : nat;
  entries : list (string * string)
}.

Fixpoint assoc (k : string) (l : list (string * string)) : option string :=
  match l with
  | [] => None
  | (k', v) :: l' => if String.eqb k k' then Some v else assoc k l'
  end.

Fixpoint unbind (k : string) (l : list (string * string))
    : list (string * string) :=
  match l with
  | [] => []
  | (k', v) :: l' =>
      if String.eqb k k' then unbind k l' else (k', v) :: unbind k l'
  end.

(** What the cache holds for [k], without touching the recency order. *)
Definition peek (c : Cache) (k : string) : option string :=
  assoc k (entries c).

(** Modelled from the spec: [AutocompleteLruCache.get], a lookup whose
    only side effect is to mark the entry most recently used; absent is a
    normal answer. *)
Definition cacheGet (c : Cache) (k : string) : option string * Cache :=
  match assoc k (entries c) with
  | Some v =>
      (Some v, {| capacity := capacity c;
                  entries := (k, v) :: unbind k (entries c) |})
  | None => (None, c)
  end.

(** Modelled from the spec: [AutocompleteLruCache.put], which inserts or
    overwrites and evicts the least recently used entries beyond the
    bound. *)
Definition cachePut (c : Cache) (k v : string) : Cache :=
  {| capacity := capacity c;
     entries := take (capacity c) ((k, v) :: unbind k (entries c)) |}.

(** Modelled from the spec: the one in-flight model stream of the
    generator reuse manager (core/autocomplete/util is not part of the
    sources at hand): the prefix it was started for and what it has yet
    to yield. *)
Record PendingStream := mkPendingStream {
  keyPrefix : string;
  tokenSource : RawStream
}.

(** The module-level singletons the function works on
    ([autocompleteCache], [ContinueCompletionProvider.errorsShown], the
    reuse manager's pending stream) and the record of host calls. *)
Record World := mkWorld {
  cache : Cache;
  errorsShown : gset string;
  pending : option PendingStream;
  log : list Event
}.

(* ---------------------------------------------------------------------- *)
(** * The effect monad                                                     *)
(* ---------------------------------------------------------------------- *)

(** State that survives a throw, as module-level state does. *)
Definition M (A : Type) : Type := World -> Res A * World.

#[export] Instance M_ret : MRet M := fun A a w => (Ok a, w).

#[export] Instance M_bind : MBind M := fun A B f m w =>
  match m w with
  | (Ok a, w') => f a w'
  | (Throw e, w') => (Throw e, w')
  | (ThrowNullish v, w') => (ThrowNullish v, w')
  end.

(** [await p] for a promise whose fate the call is given. *)
Definition await {A} (r : Res A) : M A := fun w => (r, w).

Definition emit (e : Event) : M unit := fun w =>
  (Ok tt, {| cache := cache w; errorsShown := errorsShown w;
             pending := pending w; log := log w ++ [e] |}).

(** [try { body } catch (e) { handler(e) }] *)
Definition tryCatch {A} (body : M A) (handler : Caught -> M A) : M A :=
  fun w =>
    match body w with
    | (Ok a, w') => (Ok a, w')
    | (Throw m, w') => handler (CaughtError m) w'
    | (ThrowNullish v, w') => handler (CaughtNullish v) w'
    end.

(** [e.message], for the value a [catch] clause has bound. *)
Definition readMessage (e : Caught) : M string :=
  match e with
  | CaughtError m => mret m
  | CaughtNullish v => await (Throw (cannotReadMessage v))
  end.

(** [await cache.get(key)] *)
Definition cache_get (key : string) : M (option string) := fun w =>
  let (r, c') := cacheGet (cache w) key in
  (Ok r, {| cache := c'; errorsShown := errorsShown w;
            pending := pending w; log := log w ++ [EvCacheGet key] |}).

(** [ContinueCompletionProvider.errorsShown.has(m)] *)
Definition errorsShown_has (m : string) : M bool := fun w =>
  (Ok (bool_decide (m ∈ errorsShown w)), w).

(** [ContinueCompletionProvider.errorsShown.add(m)] *)
Definition errorsShown_add (m : string) : M unit := fun w =>
  (Ok tt, {| cache := cache w; errorsShown := {[m]} ∪ errorsShown w;
             pending := pending w; log := log w |}).

(** Modelled from the spec: the compatibility relation of the reuse
    manager. The recorded prefix of the pending stream is a prefix of, or
    equal to, the prefix of the new request. *)
Definition compatible (p : PendingStream) (prefixText : string) : bool :=
  Js.startsWith prefixText (keyPrefix p).

Definition setPending (p : option PendingStream) : M unit := fun w =>
  (Ok tt, {| cache := cache w; errorsShown := errorsShown w;
             pending := p; log := log w |}).

(** Modelled from the spec: the reuse manager starting a stream.
    [newGenerator()] is invoked and its stream becomes the pending one,
    keyed by the new prefix, in place of any other; a failure of
    [newGenerator] propagates. *)
Definition startFresh (prefixText : string) (newGenerator : M RawStream)
    : M RawStream :=
  g ← newGenerator;
  _ ← setPending (Some (mkPendingStream prefixText g));
  mret g.

(** Modelled from the spec: [GeneratorReuseManager.getGenerator(prefix,
    newGenerator)]. A compatible pending stream is shared, and
    [newGenerator] is not invoked; otherwise a stream is started. *)
Definition getGenerator (prefixText : string) (newGenerator : M RawStream)
    : M RawStream := fun w =>
  match pending w with
  | Some p =>
      if compatible p prefixText then (Ok (tokenSource p), w)
      else startFresh prefixText newGenerator w
  | None => startFresh prefixText newGenerator w
  end.

(** Modelled from the spec: the pending stream is retired when its token
    source is exhausted, cancelled or has failed; a consumer that stops
    early leaves the rest of it pending. *)
Definition settlePending (remaining : option RawStream) : M unit := fun w =>
  setPending (match remaining, pending w with
              | Some r, Some p => Some (mkPendingStream (keyPrefix p) r)
              | _, _ => None
              end) w.

(* ---------------------------------------------------------------------- *)
(** * Collaborators                                                        *)
(* ---------------------------------------------------------------------- *)

Module Prompt.
(** What [constructAutocompletePrompt] resolves to. *)
Record t := mk {
  prefix : string;
  suffix : string;
  completeMultiline : bool
}.
End Prompt.

Module Template.
(** What [getTemplateForModel] returns; [completionOptions] may be
    missing. *)
Record t := mk {
  template : string;
  completionOptions : option CompletionOptions
}.
End Template.

(** The imported functions the file calls and does not define
    ([languageForFilepath] and [constructAutocompletePrompt] of
    core/autocomplete/constructPrompt, [getTemplateForModel] of
    core/autocomplete/templates, Handlebars, and the stream transforms of
    core/autocomplete/charStream, core/autocomplete/lineStream and
    core/diff/util), with the types of what they exchange.
    [handlebars t p s] is [Handlebars.compile(t)({prefix: p, suffix: s})];
    the four stream transforms are async generator functions over one
    upstream. *)
Class Collaborators := {
  Snippet : Type;
  RecentlyEditedRange : Type;
  RecentlyEditedDocument : Type;
  languageForFilepath : string -> Language;
  constructAutocompletePrompt :
    string -> Z -> string -> string -> string -> Language ->
    TabAutocompleteOptions -> list RecentlyEditedRange ->
    list RecentlyEditedDocument -> string -> list Snippet -> Res Prompt.t;
  getTemplateForModel : string -> Template.t;
  handlebars : string -> string -> string -> Res string;
  onlyWhitespaceAfterEndOfLine : list string -> Transform;
  streamLines : Transform;
  streamWithNewLines : Transform;
  stopAtSimilarLine : string -> Transform
}.

(** One call: the arguments, and what the host answers during the call.
    [token k] is [token.isCancellationRequested] as read at the [k]-th
    update received from the generator (from 0). [errorDialogChoice] is
    what the user answers to the error dialog, should the call show one;
    the answer comes after the call has returned. *)
Record Call `{Collaborators} := mkCall {
  document : TextDocument;
  pos : Position;
  token : nat -> bool;
  options : TabAutocompleteOptions;
  tabAutocompleteModel_get : Res (option LLM);
  clipboard_readText : Res string;
  getDefinitionsFromLsp : Promise (list Snippet);
  raceTie : bool;
  getRecentlyEditedRanges : Res (list RecentlyEditedRange);
  getRecentlyEditedDocuments : Res (list RecentlyEditedDocument);
  dateNow : Z * Z;
  errorDialogChoice : option string
}.

(* ---------------------------------------------------------------------- *)
(** * getTabCompletion                                                     *)
(* ---------------------------------------------------------------------- *)

Section GetTabCompletion.
Context `{Collaborators}.

(** Lines 52-56: some end-of-line marker ends the line and the cursor is
    at or past the end of the line. *)
Definition eolFilter (lang : Language) (lineText : string) (p : Position)
    : bool :=
  existsb
    (fun e => Js.endsWith lineText e
              && (Z.of_nat (String.length lineText) <=? character p)%Z)
    (endOfLine lang).

(** What the function has in hand when it reaches [// Completion]. *)
Record Prepared := mkPrepared {
  llm : LLM;
  lineBelowCursor : string;
  prefix : string;
  suffix : string;
  completeMultiline : bool;
  completionOptions : option CompletionOptions;
  prompt : string
}.

(** The timer of the race at lines 81-86. *)
Definition lspTimeoutMs : nat := 100.

(** Lines 59-108, [// Model] and [// Prompt]; [None] is the early
    [return] on a missing model. *)
Definition buildContext (c : Call) (lang : Language) : M (option Prepared) :=
  _ ← emit EvModelGet;
  l ← await (tabAutocompleteModel_get c);
  match l with
  | None => mret None
  | Some l =>
      _ ← (if instanceofOpenAI l then emit EvUseLegacyCompletionsEndpoint
           else mret tt);
      let doc := document c in
      let fullPrefix := getText doc (mkPosition 0 0) (pos c) in
      let fullSuffix :=
        getText doc (pos c)
          (mkPosition (lineCount doc) Js.MAX_SAFE_INTEGER) in
      let below :=
        lineAt doc (Z.min (line (pos c) + 1) (lineCount doc - 1)) in
      _ ← emit EvClipboardReadText;
      clipboardText ← await (clipboard_readText c);
      _ ← emit (EvGetDefinitionsFromLsp (uriFsPath doc)
                  (fullPrefix +:+ fullSuffix) (String.length fullPrefix));
      extrasSnippets ←
        await (raceTimeout (getDefinitionsFromLsp c) lspTimeoutMs
                 (raceTie c) []);
      ranges ← await (getRecentlyEditedRanges c);
      docs ← await (getRecentlyEditedDocuments c);
      parts ←
        await (constructAutocompletePrompt (uriToString doc)
                 (line (pos c)) fullPrefix fullSuffix clipboardText lang
                 (options c) ranges docs (model l) extrasSnippets);
      let t :=
        match template (options c) with
        | Some t =>
            if Js.truthy t then Template.mk t (Some emptyObject)
            else getTemplateForModel (model l)
        | None => getTemplateForModel (model l)
        end in
      p ← await (handlebars (Template.template t) (Prompt.prefix parts)
                   (Prompt.suffix parts));
      mret (Some {| llm := l; lineBelowCursor := below;
                    prefix := Prompt.prefix parts;
                    suffix := Prompt.suffix parts;
                    completeMultiline := Prompt.completeMultiline parts;
                    completionOptions := Template.completionOptions t;
                    prompt := p |})
  end.

(** Lines 124-135. *)
Definition stopSequences (co : option CompletionOptions) (lang : Language)
    (o : TabAutocompleteOptions) (multiline : bool) : list string :=
  let stop :=
    Js.orElse (match co with Some c => stop c | None => None end) []
    ++ [Js.LF +:+ Js.LF; "```"] ++ stopWords lang in
  if negb (Multiline_eqb (multilineCompletions o) always)
     && (Multiline_eqb (multilineCompletions o) never || negb multiline)
  then Js.LF :: stop
  else stop.

(** Lines 138-141: [{...completionOptions, temperature: 0, raw: true, stop}] *)
Definition streamOptions (co : option CompletionOptions)
    (stopList : list string) : CompletionOptions :=
  {| temperature := Some 0%Q;
     raw := Some true;
     stop := Some stopList;
     others := others (spread co) |}.

(** Lines 157-162: [stopAtSimilarLine(streamWithNewLines(streamLines(
    onlyWhitespaceAfterEndOfLine(upstream, lang.endOfLine))),
    lineBelowCursor)]. *)
Definition finalGenerator (lang : Language) (below : string) : Transform :=
  pipe (pipe (pipe (onlyWhitespaceAfterEndOfLine (endOfLine lang))
                   streamLines)
             streamWithNewLines)
       (stopAtSimilarLine below).


(** The state of the loop at lines 163-165 when it ends: the accumulated
    [completion], the [cancelled] flag, how many updates were received
    from the generator, and what the generator had left when the pipeline
    returned before exhausting it. *)
Record Drained := mkDrained {
  text : string;
  cancelled : bool;
  polls : nat;
  remaining : option RawStream
}.

(** Lines 146-165: the loop [for await (const update of finalGenerator)
    completion += update], with [generatorWithCancellation] written into
    it so that the [cancelled] flag it sets is at hand. The generator is
    pulled one update at a time. At each update the token is read: if
    cancellation is requested, [cancelled] is set and the wrapper returns,
    so the transforms [P] see their upstream exhausted; otherwise the
    update goes down [P] and what comes out is appended to [completion].
    A throw of the generator goes through every [for await]. *)
Fixpoint drain (P : Transform) (tok : nat -> bool) (k : nat) (s : tstate P)
    (acc : string) (ds : list string) (fail : option string) : Res Drained :=
  match ds with
  | [] =>
      match fail with
      | Some m => Throw m
      | None => Ok (mkDrained (acc +:+ Js.concat (tflush P s)) false k None)
      end
  | u :: ds' =>
      if tok k then
        Ok (mkDrained (acc +:+ Js.concat (tflush P s)) true (S k) None)
      else
        match tstep P s u with
        | (o, Some s') => drain P tok (S k) s' (acc +:+ Js.concat o) ds' fail
        | (o, None) =>
            Ok (mkDrained (acc +:+ Js.concat o) false (S k)
                  (Some (mkRawStream ds' fail)))
        end
  end.

Definition consume (P : Transform) (tok : nat -> bool) (g : RawStream)
    : M Drained := fun w =>
  match drain P tok 0 (tinit P) "" (deltas g) (failure g) with
  | Ok d =>
      (_ ← settlePending (remaining d);
       _ ← (if cancelled d then emit EvStopStatusBarLoading else mret tt);
       mret d) w
  | Throw m => (_ ← settlePending None; await (Throw m)) w
  | ThrowNullish v => (_ ← settlePending None; await (ThrowNullish v)) w
  end.

(** Lines 121-177, the branch taken on a cache miss; [None] is [return
    undefined]. *)
Definition generate (c : Call) (lang : Language) (p : Prepared)
    : M (option string) :=
  _ ← emit (EvSetupStatusBar true true);
  let stopList :=
    stopSequences (completionOptions p) lang (options c)
      (completeMultiline p) in
  generator ←
    getGenerator (prefix p)
      (_ ← emit (EvStreamComplete (prompt p)
                   (streamOptions (completionOptions p) stopList));
       mret (streamComplete (llm p) (prompt p)
               (streamOptions (completionOptions p) stopList)));
  d ← consume (finalGenerator lang (lineBelowCursor p)) (token c) generator;
  if cancelled d then mret None
  else if (String.length (Js.trim (text d)) <=? 0)%nat then mret None
  else mret (Some (Js.trimEnd (text d))).

(** Lines 180-189: the returned object. *)
Definition outcomeOf (c : Call) (p : Prepared) (completion : string)
    (cacheHit : bool) : AutocompleteOutcome.t :=
  {| AutocompleteOutcome.time := (snd (dateNow c) - fst (dateNow c))%Z;
     AutocompleteOutcome.completion := completion;
     AutocompleteOutcome.prompt := prompt p;
     AutocompleteOutcome.modelProvider := providerName (llm p);
     AutocompleteOutcome.modelName := model (llm p);
     AutocompleteOutcome.completionOptions := completionOptions p;
     AutocompleteOutcome.cacheHit := cacheHit |}.

(** The [else] branch at line 120, up to the returned object. *)
Definition missBranch (c : Call) (lang : Language) (p : Prepared)
    : M (option AutocompleteOutcome.t) :=
  o ← generate c lang p;
  mret ((fun t => outcomeOf c p t false) <$> o).

(** Lines 110-189, [// Completion]. *)
Definition complete (c : Call) (lang : Language) (p : Prepared)
    : M (option AutocompleteOutcome.t) :=
  cachedCompletion ← cache_get (prompt p);
  match cachedCompletion with
  | Some s =>
      if Js.truthy s then mret (Some (outcomeOf c p s true))
      else missBranch c lang p
  | None => missBranch c lang p
  end.

(** Lines 58-189, the body of [try]. *)
Definition tryBody (c : Call) (lang : Language) : M (option AutocompleteOutcome.t) :=
  p ← buildContext c lang;
  match p with
  | None => mret None
  | Some p => complete c lang p
  end.

Definition documentationUrl : string :=
  "https://continue.dev/docs/walkthroughs/tab-autocomplete".

(** Lines 190-204, the [catch] block up to its [return undefined]. The
    three reads of [e.message] give the same value, and the first of them
    throws when [e] is [null] or [undefined]: nothing catches that throw,
    so the call rejects with it. [showErrorMessage] returns a promise
    that the block does not await: the dialog is shown and the call
    returns; the callback given to [then] runs later (see
    [thenCallback]). *)
Definition onError (e : Caught) : M (option AutocompleteOutcome.t) :=
  _ ← emit (EvConsoleWarn (printed e));
  message ← readMessage e;
  shown ← errorsShown_has message;
  _ ← (if negb shown then
         _ ← errorsShown_add message;
         emit (EvShowErrorMessage message "Documentation")
       else mret tt);
  mret None.

(** Lines 194-202: the callback of [showErrorMessage(...).then], run by
    the host once the user has answered the dialog ([val] is the item
    picked, [undefined] when the dialog is dismissed), after the call
    that showed it has returned. *)
Definition thenCallback (val : option string) : M unit :=
  match val with
  | Some v =>
      if String.eqb v "Documentation"
      then emit (EvOpenExternal documentationUrl)
      else mret tt
  | None => mret tt
  end.

(** Lines 39-206. [Ok None] is [undefined]; a throw is the rejection of
    the promise the function returns. *)
Definition getTabCompletion (c : Call) : M (option AutocompleteOutcome.t) :=
  let lang := languageForFilepath (fileName (document c)) in
  let lineText := lineAt (document c) (line (pos c)) in
  if eolFilter lang lineText (pos c) then mret None
  else tryCatch (tryBody c lang) onError.

(** The host settling the dialogs a call has shown, one callback per
    dialog, with the user's answer. *)
Fixpoint answerDialogs (c : Call) (shown : list string) : M unit :=
  match shown with
  | [] => mret tt
  | _ :: rest =>
      _ ← thenCallback (errorDialogChoice c);
      answerDialogs c rest
  end.

(** A series of calls, one after the other, on the shared state. *)
Definition runCalls (cs : list Call) (w : World) : World :=
  fold_left (fun w c => snd (getTabCompletion c w)) cs w.

End GetTabCompletion.

(* ---------------------------------------------------------------------- *)
(** * Vocabulary of the statements                                         *)
(* ---------------------------------------------------------------------- *)

Section Vocabulary.
Context `{Collaborators}.

Definition langOf (c : Call) : Language :=
  languageForFilepath (fileName (document c)).

(** The call passes the filter and reaches [// Completion] with [p] in
    hand, in state [w1]. *)
Definition prepares (c : Call) (w : World) (p : Prepared) (w1 : World)
    : Prop :=
  eolFilter (langOf c) (lineAt (document c) (line (pos c))) (pos c) = false
  /\ buildContext c (langOf c) w = (Ok (Some p), w1).

(** [if (cachedCompletion)] fails: nothing is cached under the key, or the
    empty string is. *)
Definition isMiss (ch : Cache) (key : string) : bool :=
  match peek ch key with
  | Some s => negb (Js.truthy s)
  | None => true
  end.

(** The reuse manager shares a pending stream for this prefix. *)
Definition reuses (w : World) (prefixText : string) : bool :=
  match pending w with
  | Some ps => compatible ps prefixText
  | None => false
  end.

(** The generator the loop iterates: the shared pending stream, or the
    one [llm.streamComplete] starts. *)
Definition obtained (c : Call) (p : Prepared) (w : World) : RawStream :=
  match pending w with
  | Some ps =>
      if compatible ps (prefix p) then tokenSource ps
      else streamComplete (llm p) (prompt p)
             (streamOptions (completionOptions p)
                (stopSequences (completionOptions p) (langOf c) (options c)
                   (completeMultiline p)))
  | None =>
      streamComplete (llm p) (prompt p)
        (streamOptions (completionOptions p)
           (stopSequences (completionOptions p) (langOf c) (options c)
              (completeMultiline p)))
  end.

(** The loop at lines 163-165 run on that generator. *)
Definition theLoop (c : Call) (p : Prepared) (w : World) : Res Drained :=
  let P := finalGenerator (langOf c) (lineBelowCursor p) in
  drain P (token c) 0 (tinit P) "" (deltas (obtained c p w))
    (failure (obtained c p w)).

(** Lines 167-177: what becomes of the accumulated text. *)
Definition verdict (d : Drained) : option string :=
  if cancelled d then None
  else if Js.truthy (Js.trim (text d)) then Some (Js.trimEnd (text d))
  else None.

(** What [generatorWithCancellation] yields from updates [ds], the token
    being read from the [k]-th reading on. *)
Fixpoint untilCancelled (tok : nat -> bool) (k : nat) (ds : list string)
    : list string :=
  match ds with
  | [] => []
  | u :: ds' => if tok k then [] else u :: untilCancelled tok (S k) ds'
  end.

(** The host calls recorded after the first [n]. *)
Definition eventsSince (n : nat) (w : World) : list Event :=
  drop n (log w).

Definition streamCompleteCalls (evs : list Event)
    : list (string * CompletionOptions) :=
  omap (fun e => match e with
                 | EvStreamComplete pr o => Some (pr, o)
                 | _ => None
                 end) evs.

Definition shownMessages (evs : list Event) : list string :=
  omap (fun e => match e with
                 | EvShowErrorMessage m _ => Some m
                 | _ => None
                 end) evs.

Definition cacheReads (evs : list Event) : list string :=
  omap (fun e => match e with
                 | EvCacheGet k => Some k
                 | _ => None
                 end) evs.

(** Every message shown so far is in the set of shown errors, and none
    was shown twice. *)
Definition shownOnce (w : World) : Prop :=
  NoDup (shownMessages (log w))
  /\ forall m, m ∈ shownMessages (log w) -> m ∈ errorsShown w.

Definition withDefinitions (c : Call) (p : Promise (list Snippet)) : Call :=
  {| document := document c; pos := pos c; token := token c;
     options := options c;
     tabAutocompleteModel_get := tabAutocompleteModel_get c;
     clipboard_readText := clipboard_readText c;
     getDefinitionsFromLsp := p;
     raceTie := raceTie c;
     getRecentlyEditedRanges := getRecentlyEditedRanges c;
     getRecentlyEditedDocuments := getRecentlyEditedDocuments c;
     dateNow := dateNow c;
     errorDialogChoice := errorDialogChoice c |}.

End Vocabulary.

(* ---------------------------------------------------------------------- *)
(** * A sample host                                                        *)
(* ---------------------------------------------------------------------- *)

Module Sample.

(** Modelled from the spec: the line reassembler ([streamLines] of
    core/diff/util, not part of the sources at hand). It buffers the
    deltas and yields each complete line; a last partial line is yielded
    when the upstream ends. *)
Fixpoint splitLines (cur s : string) : list string * string :=
  match s with
  | "" => ([], cur)
  | String ch r =>
      if Ascii.eqb ch "010"%char
      then let (ls, b) := splitLines "" r in (cur :: ls, b)
      else splitLines (cur +:+ String ch "") r
  end.

Definition lineSplitter : Transform :=
  {| tstate := string;
     tinit := "";
     tstep := fun b u => let (ls, b') := splitLines b u in (ls, Some b');
     tflush := fun b => if Js.truthy b then [b] else [] |}.

(** Modelled from the spec: [streamWithNewLines] puts the newline back
    between consecutive lines. *)
Definition newlineJoiner : Transform :=
  {| tstate := bool;
     tinit := true;
     tstep := fun firstLine l =>
       (if firstLine then [l] else [Js.LF; l], Some false);
     tflush := fun _ => [] |}.

(** Modelled from the spec: the similar-line stopper, with equality of the
    trimmed lines as the similarity measure. *)
Definition similarStopper (below : string) : Transform :=
  {| tstate := unit;
     tinit := tt;
     tstep := fun _ l =>
       if Js.truthy (Js.trim below)
          && String.eqb (Js.trim l) (Js.trim below)
       then ([], None) else ([l], Some tt);
     tflush := fun _ => [] |}.

(** Modelled from the spec: the whitespace-after-end-of-line suppressor.
    After a delta that is one of the markers, deltas of whitespace only
    are dropped until another delta comes. *)
Definition spaceDropper (eol : list string) : Transform :=
  {| tstate := bool;
     tinit := false;
     tstep := fun afterMarker u =>
       if afterMarker && negb (Js.truthy (Js.trim u)) then ([], Some true)
       else ([u], Some (existsb (String.eqb u) eol));
     tflush := fun _ => [] |}.

Definition typescript : Language :=
  {| endOfLine := [";"]; stopWords := ["function"; "class"] |}.

Definition fillTemplate : Template.t :=
  Template.mk "<PRE> {{{prefix}}} <SUF>{{{suffix}}} <MID>"
    (Some {| temperature := Some (1 # 2); raw := None;
             stop := Some ["<EOT>"]; others := [("maxTokens", "256")] |}).

#[export] Instance host : Collaborators :=
  {| Snippet := string;
     RecentlyEditedRange := string;
     RecentlyEditedDocument := string;
     languageForFilepath := fun _ => typescript;
     constructAutocompletePrompt :=
       fun _ _ fullPrefix fullSuffix clipboardText _ _ _ _ _ snippets =>
         Ok (Prompt.mk (Js.concat snippets +:+ fullPrefix) fullSuffix
               (negb (String.eqb clipboardText "one-line")));
     getTemplateForModel := fun _ => fillTemplate;
     handlebars := fun _ p s => Ok ("<PRE> " +:+ p +:+ " <SUF>" +:+ s +:+ " <MID>");
     onlyWhitespaceAfterEndOfLine := spaceDropper;
     streamLines := lineSplitter;
     streamWithNewLines := newlineJoiner;
     stopAtSimilarLine := similarStopper |}.

(** A three-line document; the text before and after the cursor is given
    for the cursor positions the sample calls use. *)
Definition docLines : list string :=
  ["const a = f();"; "const b = "; "return a + b;"].

Definition doc : TextDocument :=
  {| fileName := "/w/a.ts";
     uriFsPath := "/w/a.ts";
     uriToString := "file:///w/a.ts";
     lineCount := 3;
     lineAt := fun n => nth (Z.to_nat n) docLines "";
     getText := fun a b =>
       if (line a =? 0)%Z && (character a =? 0)%Z
       then "const a = f();" +:+ Js.LF +:+ "const b = "
       else Js.LF +:+ "return a + b;" |}.

(** A model that answers with the given deltas whatever it is asked. *)
Definition modelOf (g : RawStream) : LLM :=
  {| providerName := "ollama"; model := "codellama-7b";
     instanceofOpenAI := false; streamComplete := fun _ _ => g |}.

Definition callWith (p : Position) (tok : nat -> bool) (mc : Multiline)
    (m : Res (option LLM)) (clip : string)
    (lookup : Promise (list string)) : Call :=
  {| document := doc; pos := p; token := tok;
     options := mkOptions mc None;
     tabAutocompleteModel_get := m;
     clipboard_readText := Ok clip;
     getDefinitionsFromLsp := lookup;
     raceTie := false;
     getRecentlyEditedRanges := Ok [];
     getRecentlyEditedDocuments := Ok [];
     dateNow := (1000, 1250)%Z;
     errorDialogChoice := None |}.

Definition cursor : Position := mkPosition 1 10.

(** The model answers [g(1);] and a blank tail. *)
Definition answer : RawStream :=
  mkRawStream ["g("; "1);"; Js.LF; "  "] None.

Definition call : Call :=
  callWith cursor (fun _ => false) auto (Ok (Some (modelOf answer))) ""
    (SettlesAt 20 (Ok [])).

Definition world0 : World :=
  mkWorld (mkCache 4 []) ∅ None [].

(** The cursor after the semicolon that ends the first line. *)
Definition atEndOfStatement : Call :=
  callWith (mkPosition 0 14) (fun _ => false) auto
    (Ok (Some (modelOf answer))) "" Pending.

(** What [call] has in hand at [// Completion]. *)
Definition prepared : Prepared :=
  {| llm := modelOf answer;
     lineBelowCursor := "return a + b;";
     prefix := "const a = f();" +:+ Js.LF +:+ "const b = ";
     suffix := Js.LF +:+ "return a + b;";
     completeMultiline := true;
     completionOptions := Template.completionOptions fillTemplate;
     prompt := "<PRE> const a = f();" +:+ Js.LF +:+ "const b =  <SUF>"
               +:+ Js.LF +:+ "return a + b; <MID>" |}.

(** The state [call] reaches [// Completion] in, from [w]. *)
Definition afterContext (w : World) : World :=
  mkWorld (cache w) (errorsShown w) (pending w)
    (log w ++ [EvModelGet; EvClipboardReadText;
               EvGetDefinitionsFromLsp "/w/a.ts"
                 ("const a = f();" +:+ Js.LF +:+ "const b = " +:+ Js.LF
                  +:+ "return a + b;") 25]).

(** A cache that holds a text with blanks around it for the prompt. *)
Definition worldCached : World :=
  mkWorld (mkCache 4 [("other", "x"); (prompt prepared, "  h(2)  ")])
    ∅ None [].

(** A stream for the prefix [const a] is in flight, with another answer. *)
Definition worldShared : World :=
  mkWorld (mkCache 4 [])
    ∅ (Some (mkPendingStream "const a" (mkRawStream ["h("; "2);"] None))) [].

(** The outcome of [call] from [world0]. *)
Definition served : AutocompleteOutcome.t := outcomeOf call prepared "g(1);" false.

(** The options [call] passes to the model. *)
Definition passedOptions : CompletionOptions :=
  {| temperature := Some 0%Q; raw := Some true;
     stop := Some ["<EOT>"; Js.LF +:+ Js.LF; "```"; "function"; "class"];
     others := [("maxTokens", "256")] |}.

(** The state [call] leaves when made in [world0]: the cache as it was,
    the stream exhausted and retired. *)
Definition afterServed : World :=
  mkWorld (cache world0) (errorsShown world0) None
    (log (afterContext world0)
     ++ [EvCacheGet (prompt prepared); EvSetupStatusBar true true;
         EvStreamComplete (prompt prepared) passedOptions]).

(** The state with the text of an outcome put in the cache under its
    prompt. *)
Definition stored (w : World) (o : AutocompleteOutcome.t) : World :=
  mkWorld (cachePut (cache w) (AutocompleteOutcome.prompt o) (AutocompleteOutcome.completion o))
    (errorsShown w) (pending w) (log w).

(** The token reads as cancelled from the second update on. *)
Definition callCancelled : Call :=
  callWith cursor (fun k => Nat.leb 1 k) auto (Ok (Some (modelOf answer))) ""
    (SettlesAt 20 (Ok [])).

(** The model answers with blanks only. *)
Definition blank : RawStream := mkRawStream ["  "; Js.LF; " "] None.

Definition callBlank : Call :=
  callWith cursor (fun _ => false) auto (Ok (Some (modelOf blank))) ""
    (SettlesAt 20 (Ok [])).

(** The model stream throws after its first delta. *)
Definition refused : RawStream :=
  mkRawStream ["g("] (Some "connect ECONNREFUSED").

Definition callRefused : Call :=
  callWith cursor (fun _ => false) auto (Ok (Some (modelOf refused))) ""
    (SettlesAt 20 (Ok [])).


(** A cache that holds the empty string for the prompt. *)
Definition worldCachedEmpty : World :=
  mkWorld (mkCache 4 [(prompt prepared, "")]) ∅ None [].

(** What a call at [cursor] has in hand when the model answers [g]. *)
Definition preparedFor (g : RawStream) : Prepared :=
  mkPrepared (modelOf g) (lineBelowCursor prepared) (prefix prepared)
    (suffix prepared) true (completionOptions prepared) (prompt prepared).

(** The model goes on into the line below the cursor. *)
Definition catchingUp : RawStream :=
  mkRawStream ["g(1);" +:+ Js.LF +:+ "return a + b;" +:+ Js.LF; "return 0;"]
    None.

Definition callCatchingUp : Call :=
  callWith cursor (fun _ => false) auto (Ok (Some (modelOf catchingUp))) ""
    (SettlesAt 20 (Ok [])).

(** No model is configured. *)
Definition callNoModel : Call :=
  callWith cursor (fun _ => false) auto (Ok None) "" (SettlesAt 20 (Ok [])).

End Sample.

(* ---------------------------------------------------------------------- *)
(** * The host calls of one call                                           *)
(* ---------------------------------------------------------------------- *)

(** A text of white space only, the empty text included. *)
Fixpoint allWhiteSpace (s : string) : bool :=
  match s with
  | "" => true
  | String ch r => Js.isWhiteSpace ch && allWhiteSpace r
  end.

(** The last code unit of a text. *)
Fixpoint lastCodeUnit (s : string) : option ascii :=
  match s with
  | "" => None
  | String ch "" => Some ch
  | String _ r => lastCodeUnit r
  end.

Section Trace.
Context `{Collaborators}.

(** The host calls made by the call [c] in state [w]. *)
Definition callEvents (c : Call) (w : World) : list Event :=
  eventsSince (length (log w)) (snd (getTabCompletion c w)).

(** The host calls made while building the context. *)
Definition contextEvents (c : Call) (w : World) : list Event :=
  eventsSince (length (log w)) (snd (buildContext c (langOf c) w)).

(** The host calls of the [catch] block for message [m], the set of shown
    errors being [shown]. *)
Definition errorEvents (m : string) (shown : gset string) : list Event :=
  EvConsoleWarn m ::
  if bool_decide (m ∈ shown) then []
  else [EvShowErrorMessage m "Documentation"].

(** The host calls of the [catch] block for a thrown [null] or
    [undefined]. *)
Definition nullishEvents (v : Nullish) : list Event :=
  [EvConsoleWarn (printed (CaughtNullish v))].

(** The host calls of the [else] branch at line 120. *)
Definition missEvents (c : Call) (p : Prepared) (w : World) : list Event :=
  [EvSetupStatusBar true true]
  ++ (if reuses w (prefix p) then []
      else [EvStreamComplete (prompt p)
              (streamOptions (completionOptions p)
                 (stopSequences (completionOptions p) (langOf c) (options c)
                    (completeMultiline p)))])
  ++ match theLoop c p w with
     | Ok d => if cancelled d then [EvStopStatusBarLoading] else []
     | Throw m => errorEvents m (errorsShown w)
     | ThrowNullish v => nullishEvents v
     end.

(** The host calls of a whole call, path by path. *)
Definition expectedEvents (c : Call) (w : World) : list Event :=
  if eolFilter (langOf c) (lineAt (document c) (line (pos c))) (pos c)
  then []
  else
    contextEvents c w
    ++ match buildContext c (langOf c) w with
       | (Throw m, _) => errorEvents m (errorsShown w)
       | (ThrowNullish v, _) => nullishEvents v
       | (Ok None, _) => []
       | (Ok (Some p), w1) =>
           EvCacheGet (prompt p) ::
           if isMiss (cache w1) (prompt p) then missEvents c p w1 else []
       end.

(** The user answers the error dialog with its "Documentation" item. *)
Definition choseDocumentation (c : Call) : bool :=
  match errorDialogChoice c with
  | Some v => String.eqb v "Documentation"
  | None => false
  end.

Definition statusBarCalls (evs : list Event) : list Event :=
  omap (fun e => match e with
                 | EvSetupStatusBar _ _ | EvStopStatusBarLoading => Some e
                 | _ => None
                 end) evs.

Definition openExternalCalls (evs : list Event) : list string :=
  omap (fun e => match e with
                 | EvOpenExternal u => Some u
                 | _ => None
                 end) evs.

(** The state once the call [c], made in state [w], has returned and the
    host has settled the dialogs the call has shown. *)
Definition afterDialogs (c : Call) (w : World) : World :=
  snd (answerDialogs c (shownMessages (callEvents c w))
         (snd (getTabCompletion c w))).

(** The host calls made by the callbacks of those dialogs. *)
Definition dialogEvents (c : Call) (w : World) : list Event :=
  eventsSince (length (log (snd (getTabCompletion c w)))) (afterDialogs c w).

Definition legacyEndpointSwitches (evs : list Event) : list unit :=
  omap (fun e => match e with
                 | EvUseLegacyCompletionsEndpoint => Some tt
                 | _ => None
                 end) evs.

(** The call [c] with [options.template] set to [t]. *)
Definition withTemplate (c : Call) (t : option string) : Call :=
  {| document := document c; pos := pos c; token := token c;
     options := mkOptions (multilineCompletions (options c)) t;
     tabAutocompleteModel_get := tabAutocompleteModel_get c;
     clipboard_readText := clipboard_readText c;
     getDefinitionsFromLsp := getDefinitionsFromLsp c;
     raceTie := raceTie c;
     getRecentlyEditedRanges := getRecentlyEditedRanges c;
     getRecentlyEditedDocuments := getRecentlyEditedDocuments c;
     dateNow := dateNow c;
     errorDialogChoice := errorDialogChoice c |}.

End Trace.

(** More sample calls on the sample host. *)
Module MoreSamples.
Import Sample.

(** The symbol lookup rejects after 30 ms. *)
Definition callLookupRejects : Call :=
  callWith cursor (fun _ => false) auto (Ok (Some (modelOf answer))) ""
    (SettlesAt 30 (Throw "language server crashed")).

(** The state a call reaches when it fails on the symbol lookup. *)
Definition afterLookup (w : World) : World := afterContext w.

(** The template option set to the empty string, and to a template. *)
Definition callEmptyTemplate : Call := withTemplate call (Some "").

Definition callOverride : Call :=
  withTemplate call (Some "{{{prefix}}}<FILL>{{{suffix}}}").

Definition preparedOverride : Prepared :=
  mkPrepared (modelOf answer) (lineBelowCursor prepared) (prefix prepared)
    (suffix prepared) true (Some emptyObject) (prompt prepared).

(** The model goes on into the line below the cursor and then fails. *)
Definition stopThenFail : RawStream :=
  mkRawStream (deltas catchingUp) (Some "socket hang up").

Definition callStopThenFail : Call :=
  callWith cursor (fun _ => false) auto (Ok (Some (modelOf stopThenFail))) ""
    (SettlesAt 20 (Ok [])).

(** Cancellation is read at the second update of a stream that would
    fail after it. *)
Definition cancelThenFail : RawStream :=
  mkRawStream ["g("; "1);"] (Some "socket hang up").

Definition callCancelThenFail : Call :=
  callWith cursor (fun k => Nat.leb 1 k) auto
    (Ok (Some (modelOf cancelThenFail))) "" (SettlesAt 20 (Ok [])).

(** The cursor in the last line of the document. *)
Definition callLastLine : Call :=
  callWith (mkPosition 2 6) (fun _ => false) auto
    (Ok (Some (modelOf answer))) "" (SettlesAt 20 (Ok [])).

Definition preparedLastLine : Prepared :=
  mkPrepared (modelOf answer) "return a + b;" (prefix prepared)
    (suffix prepared) true (completionOptions prepared) (prompt prepared).

(** An OpenAI model, with the text for the prompt in the cache. *)
Definition openAiModel : LLM :=
  {| providerName := "openai"; model := "gpt-3.5-turbo-instruct";
     instanceofOpenAI := true; streamComplete := fun _ _ => answer |}.

Definition callOpenAi : Call :=
  callWith cursor (fun _ => false) auto (Ok (Some openAiModel)) ""
    (SettlesAt 20 (Ok [])).

Definition preparedOpenAi : Prepared :=
  mkPrepared openAiModel (lineBelowCursor prepared) (prefix prepared)
    (suffix prepared) true (completionOptions prepared) (prompt prepared).

(** The state [callOpenAi] reaches [// Completion] in, from [w]. *)
Definition afterContextOpenAi (w : World) : World :=
  mkWorld (cache w) (errorsShown w) (pending w)
    (log w ++ [EvModelGet; EvUseLegacyCompletionsEndpoint;
               EvClipboardReadText;
               EvGetDefinitionsFromLsp "/w/a.ts"
                 ("const a = f();" +:+ Js.LF +:+ "const b = " +:+ Js.LF
                  +:+ "return a + b;") 25]).





(** The model handle rejects with [null]. *)
Definition callNullRejection : Call :=
  callWith cursor (fun _ => false) auto (ThrowNullish JsNull) ""
    (SettlesAt 20 (Ok [])).

(** The failing call, its user choosing the documentation. *)
Definition callRefusedDocs : Call :=
  {| document := document callRefused; pos := pos callRefused;
     token := token callRefused; options := options callRefused;
     tabAutocompleteModel_get := tabAutocompleteModel_get callRefused;
     clipboard_readText := clipboard_readText callRefused;
     getDefinitionsFromLsp := getDefinitionsFromLsp callRefused;
     raceTie := raceTie callRefused;
     getRecentlyEditedRanges := getRecentlyEditedRanges callRefused;
     getRecentlyEditedDocuments := getRecentlyEditedDocuments callRefused;
     dateNow := dateNow callRefused;
     errorDialogChoice := Some "Documentation" |}.

End MoreSamples.

(* ---------------------------------------------------------------------- *)
(** * llmFromDescription                                                   *)
(* ---------------------------------------------------------------------- *)

Module Llms.

(** A property value: [undefined], [null], a boolean, a number (a
    rational; NaN is left out), a string, or an object, arrays among
    them, kept by a name. *)
Inductive JsValue :=
| JUndefined
| JNull
| JBool (b : bool)
| JNumber (n : Q)
| JString (s : string)
| JObject (name : string).

Definition truthy (v : JsValue) : bool :=
  match v with
  | JUndefined | JNull => false
  | JBool b => b
  | JNumber n => negb (Qeq_bool n 0)
  | JString s => Js.truthy s
  | JObject _ => true
  end.

(** [a || b] *)
Definition or (a b : JsValue) : JsValue := if truthy a then a else b.

(** An object as its own properties. *)
Abbreviation Obj := (gmap string JsValue).

(** [o.k] *)
Definition get (o : Obj) (k : string) : JsValue := default JUndefined (o !! k).

(** [{...a, ...b}], either of them possibly [undefined]: the properties
    of [b] go over those of [a]. *)
Definition spread2 (a b : option Obj) : Obj := default ∅ b ∪ default ∅ a.

(** The static [defaultOptions] of a provider class, by what is read of
    it: [model] and [completionOptions]. *)
Record DefaultOptions := mkDefaultOptions {
  defaultModel : JsValue;
  defaultCompletionOptions : option Obj
}.

(** A provider class: its static [providerName] and [defaultOptions]. *)
Record LlmClass := mkLlmClass {
  providerName : string;
  defaultOptions : option DefaultOptions
}.

(** [ModelDescription]: the properties the function reads, and the
    others. *)
Record ModelDescription := mkModelDescription {
  provider : string;
  model : JsValue;
  completionOptions : option Obj;
  rest : Obj
}.

(** [LLMOptions] as built at lines 172-182: the description's properties
    with [completionOptions] replaced. *)
Record LLMOptions := mkLLMOptions {
  o_provider : string;
  o_model : JsValue;
  o_rest : Obj;
  o_completionOptions : Obj
}.

(** [new cls(options)]: the class and what its constructor is given. *)
Record Instance := mkInstance {
  cls : LlmClass;
  options : LLMOptions
}.

(** The imported provider classes. *)
Class Classes := {
  Anthropic : LlmClass;
  FreeTrial : LlmClass;
  GooglePalmProxy : LlmClass;
  GooglePalm : LlmClass;
  Llamafile : LlmClass;
  Ollama : LlmClass;
  Replicate : LlmClass;
  TextGenWebUI : LlmClass;
  Together : LlmClass;
  HuggingFaceTGI : LlmClass;
  HuggingFaceInferenceAPI : LlmClass;
  LlamaCpp : LlmClass;
  OpenAI : LlmClass;
  LMStudio : LlmClass;
  Gemini : LlmClass
}.

Section WithClasses.
Context `{Classes}.

(** Lines 139-155. *)
Definition LLMs : list LlmClass :=
  [ Anthropic; FreeTrial; GooglePalmProxy; GooglePalm; Llamafile; Ollama;
    Replicate; TextGenWebUI; Together; HuggingFaceTGI;
    HuggingFaceInferenceAPI; LlamaCpp; OpenAI; LMStudio; Gemini ].

(** [cls.defaultOptions?.model] *)
Definition classModel (c : LlmClass) : JsValue :=
  match defaultOptions c with
  | Some d => defaultModel d
  | None => JUndefined
  end.

(** [cls.defaultOptions?.completionOptions?.maxTokens] *)
Definition classMaxTokens (c : LlmClass) : JsValue :=
  match defaultOptions c with
  | Some d =>
      match defaultCompletionOptions d with
      | Some o => get o "maxTokens"
      | None => JUndefined
      end
  | None => JUndefined
  end.

(** Lines 157-185. [None] is [undefined]. *)
Definition llmFromDescription (desc : ModelDescription)
    (completionOptions : option Obj) : option Instance :=
  match List.find (fun llm => String.eqb (providerName llm) (provider desc))
          LLMs with
  | None => None
  | Some cls =>
      let finalCompletionOptions :=
        spread2 completionOptions (Llms.completionOptions desc) in
      let options :=
        {| o_provider := provider desc;
           o_model := model desc;
           o_rest := rest desc;
           o_completionOptions :=
             <["maxTokens" :=
                 or (or (get finalCompletionOptions "maxTokens")
                        (classMaxTokens cls))
                    (JNumber 1024%Q)]>
               (<["model" :=
                    or (or (model desc) (classModel cls))
                       (JString "codellama-7b")]>
                  finalCompletionOptions) |} in
      Some (mkInstance cls options)
  end.

End WithClasses.

(** A sample table of classes: the two Google PaLM classes carry one
    provider name. *)
Definition plain (name : string) : LlmClass := mkLlmClass name None.

#[export] Instance sampleClasses : Classes :=
  {| Anthropic :=
       mkLlmClass "anthropic"
         (Some (mkDefaultOptions (JString "claude-2")
                  (Some {["maxTokens" := JNumber 4096%Q]})));
     FreeTrial := plain "free-trial";
     GooglePalmProxy := mkLlmClass "google-palm"
         (Some (mkDefaultOptions (JString "chat-bison-001") None));
     GooglePalm := plain "google-palm";
     Llamafile := plain "llamafile";
     Ollama := plain "ollama";
     Replicate := plain "replicate";
     TextGenWebUI := plain "text-gen-webui";
     Together := plain "together";
     HuggingFaceTGI := plain "huggingface-tgi";
     HuggingFaceInferenceAPI := plain "huggingface-inference-api";
     LlamaCpp := plain "llama.cpp";
     OpenAI := plain "openai";
     LMStudio := plain "lmstudio";
     Gemini := plain "gemini" |}.

(** Sample descriptions. *)
Definition describe (prov : string) (m : JsValue) (co : option Obj)
    : ModelDescription :=
  mkModelDescription prov m co {["title" := JString "My model"]}.

(** What the sample table gives for an Ollama description that names no
    model. *)
Definition ollamaInstance : Instance :=
  mkInstance Ollama
    (mkLLMOptions "ollama" (JString "") {["title" := JString "My model"]}
       (<["maxTokens" := JNumber 1024%Q]>
          (<["model" := JString "codellama-7b"]> ∅))).

(** For an Anthropic description with [maxTokens: 0], options with
    [maxTokens: 512] being passed. *)
Definition anthropicInstance : Instance :=
  mkInstance Anthropic
    (mkLLMOptions "anthropic" (JString "claude-3")
       {["title" := JString "My model"]}
       (<["maxTokens" := JNumber 4096%Q]>
          (<["model" := JString "claude-3"]>
             ({["maxTokens" := JNumber 0%Q]}
              ∪ {["maxTokens" := JNumber 512%Q]})))).

(** For an Ollama description with a temperature of its own, options with
    another temperature and a [topK] being passed. *)
Definition temperedInstance : Instance :=
  mkInstance Ollama
    (mkLLMOptions "ollama" (JString "llama2")
       {["title" := JString "My model"]}
       (<["maxTokens" := JNumber 1024%Q]>
          (<["model" := JString "llama2"]>
             ({["temperature" := JNumber 0.2%Q]}
              ∪ {["temperature" := JNumber 0.9%Q; "topK" := JNumber 40%Q]})))).

End Llms.

(* ====================================================================== *)
(** * Properties                                                           *)
(* ====================================================================== *)

(* ---------------------------------------------------------------------- *)
(** ** Strings                                                             *)
(* ---------------------------------------------------------------------- *)

Example trim_sample : Js.trim ("  a b " +:+ Js.LF) = "a b".
Proof. reflexivity. Qed.

Example trimEnd_sample : Js.trimEnd ("  a b " +:+ Js.LF) = "  a b".
Proof. reflexivity. Qed.

Example endsWith_sample :
  Js.endsWith "foo();" ";" = true /\ Js.endsWith "foo()" ";" = false
  /\ Js.endsWith "" ";" = false /\ Js.endsWith "a" "" = true.
Proof. repeat split; reflexivity. Qed.

Lemma truthy_false s : Js.truthy s = false <-> s = "".
Proof. destruct s; simpl; split; congruence. Qed.

Lemma truthy_true s : Js.truthy s = true <-> s <> "".
Proof. destruct s; simpl; split; congruence. Qed.

Lemma length_leb_0 s : (String.length s <=? 0)%nat = negb (Js.truthy s).
Proof. destruct s; reflexivity. Qed.

(** A text that trims to something keeps something when only its end is
    trimmed. *)
Lemma trim_truthy_trimEnd s :
  Js.truthy (Js.trim s) = true -> Js.truthy (Js.trimEnd s) = true.
Proof.
  unfold Js.trim. destruct (Js.trimEnd s) as [|ch r]; simpl; [congruence|done].
Qed.

(** [trimEnd] removes nothing but a suffix. *)
Lemma trimEnd_is_prefix s : exists t, s = Js.trimEnd s +:+ t.
Proof.
  induction s as [|ch r [t IH]]; simpl.
  - by exists "".
  - destruct (Js.isWhiteSpace ch && negb (Js.truthy (Js.trimEnd r))).
    + by exists (String ch r).
    + exists t. change (String ch r = String ch (Js.trimEnd r +:+ t)).
      by f_equal.
Qed.

Lemma append_nil (b : string) : "" +:+ b = b.
Proof. reflexivity. Qed.

Lemma append_cons ch (a b : string) :
  String ch a +:+ b = String ch (a +:+ b).
Proof. reflexivity. Qed.

Lemma append_assoc (a b c : string) : (a +:+ b) +:+ c = a +:+ (b +:+ c).
Proof.
  induction a as [|ch a IH]; [done|].
  by rewrite !append_cons, IH.
Qed.

Lemma append_empty_r (a : string) : a +:+ "" = a.
Proof.
  induction a as [|ch a IH]; [done|].
  by rewrite append_cons, IH.
Qed.

Lemma concat_app (l1 l2 : list string) :
  Js.concat (l1 ++ l2) = Js.concat l1 +:+ Js.concat l2.
Proof.
  induction l1 as [|x l1 IH]; [done|].
  cbn [app Js.concat fold_right]. fold (Js.concat (l1 ++ l2)).
  fold (Js.concat l1). by rewrite IH, append_assoc.
Qed.

(* ---------------------------------------------------------------------- *)
(** ** Stream transforms                                                   *)
(* ---------------------------------------------------------------------- *)




Example runT_sample :
  runT (pipe Sample.lineSplitter Sample.newlineJoiner)
    ["ab"; "c" +:+ Js.LF +:+ "d"; "e"]
  = ["abc"; Js.LF; "de"].
Proof. reflexivity. Qed.

(* ---------------------------------------------------------------------- *)
(** ** The consuming loop                                                  *)
(* ---------------------------------------------------------------------- *)

Section Loop.
Context `{Collaborators}.

Lemma yields_cons (P : Transform) s u us :
  yields P s (u :: us) =
  match tstep P s u with
  | (o, Some s') => o ++ yields P s' us
  | (o, None) => o
  end.
Proof.
  unfold yields. cbn [feed].
  destruct (tstep P s u) as [o [s'|]]; [|done].
  destruct (feed P s' us) as [o' [s''|]]; [|done].
  by rewrite app_assoc.
Qed.

(** The loop ends with a throw only when the generator throws, and
    otherwise with [completion] grown by what the pipeline yields on the
    updates let through by [generatorWithCancellation]. *)
Lemma drain_text (P : Transform) tok ds fail : forall k s acc,
  match drain P tok k s acc ds fail with
  | Ok d => text d = acc +:+ Js.concat (yields P s (untilCancelled tok k ds))
  | Throw m => fail = Some m
  | ThrowNullish _ => False
  end.
Proof.
  induction ds as [|u ds IH]; intros k s acc; cbn [drain untilCancelled].
  - destruct fail; done.
  - destruct (tok k); [done|].
    rewrite yields_cons.
    destruct (tstep P s u) as [o [s'|]]; [|done].
    specialize (IH (S k) s' (acc +:+ Js.concat o)).
    destruct (drain P tok (S k) s' (acc +:+ Js.concat o) ds fail);
      [|done..].
    by rewrite IH, concat_app, append_assoc.
Qed.

(** A generator that does not throw always lets the loop end normally. *)
Lemma drain_total (P : Transform) tok ds : forall k s acc,
  exists d, drain P tok k s acc ds None = Ok d.
Proof.
  induction ds as [|u ds IH]; intros k s acc; cbn [drain]; [by eexists|].
  destruct (tok k); [by eexists|].
  destruct (tstep P s u) as [o [s'|]]; [apply IH|by eexists].
Qed.

(** Cancellation read at the [i]-th update from here, the pipeline still
    pulling: the loop ends there, with what the first [i] updates gave. *)
Lemma drain_cancel (P : Transform) tok fail : forall i ds k s acc o s',
  i < length ds ->
  tok (k + i) = true ->
  (forall j, j < i -> tok (k + j) = false) ->
  feed P s (take i ds) = (o, Some s') ->
  drain P tok k s acc ds fail =
  Ok (mkDrained (acc +:+ Js.concat (o ++ tflush P s')) true (S (k + i)) None).
Proof.
  induction i as [|i IH]; intros ds k s acc o s' Hlt Hc Hb Hf;
    destruct ds as [|u ds]; simpl in Hlt; try lia.
  - cbn [take feed] in Hf. simplify_eq. cbn [drain].
    rewrite Nat.add_0_r in Hc. rewrite Hc. by rewrite Nat.add_0_r.
  - cbn [take feed] in Hf. cbn [drain].
    rewrite <- (Nat.add_0_r k) at 1. rewrite (Hb 0) by lia.
    destruct (tstep P s u) as [o1 [s1|]]; [|done].
    destruct (feed P s1 (take i ds)) as [o2 r] eqn:E. simplify_eq.
    rewrite (IH ds (S k) s1 (acc +:+ Js.concat o1) o2 s').
    + rewrite !concat_app, !append_assoc.
      by replace (S k + i) with (k + S i) by lia.
    + lia.
    + by replace (S k + i) with (k + S i) by lia.
    + intros j Hj. replace (S k + j) with (k + S j) by lia. apply Hb. lia.
    + done.
Qed.

(** Up to a cancellation seen at the [i]-th update, what
    [generatorWithCancellation] yields is the first [i] updates. *)
Lemma untilCancelled_take tok : forall i ds k,
  i < length ds ->
  tok (k + i) = true ->
  (forall j, j < i -> tok (k + j) = false) ->
  untilCancelled tok k ds = take i ds.
Proof.
  induction i as [|i IH]; intros ds k Hlt Hc Hb;
    destruct ds as [|u ds]; simpl in Hlt; try lia; cbn [untilCancelled take].
  - rewrite Nat.add_0_r in Hc. by rewrite Hc.
  - rewrite <- (Nat.add_0_r k) at 1. rewrite (Hb 0) by lia.
    f_equal. apply IH; [lia| |].
    + by replace (S k + i) with (k + S i) by lia.
    + intros j Hj. replace (S k + j) with (k + S j) by lia. apply Hb. lia.
Qed.


End Loop.

(* ---------------------------------------------------------------------- *)
(** ** The cache                                                           *)
(* ---------------------------------------------------------------------- *)

Lemma assoc_unbind_ne k k' l : k' <> k -> assoc k' (unbind k l) = assoc k' l.
Proof.
  intros Hne. induction l as [|[k0 v0] l IH]; [done|]. cbn [unbind assoc].
  destruct (String.eqb_spec k k0) as [->|Hk].
  - rewrite IH. by destruct (String.eqb_spec k' k0).
  - cbn [assoc]. by rewrite IH.
Qed.

(** A lookup changes the recency order only, never what is stored. *)
Lemma peek_cacheGet c k k' : peek (snd (cacheGet c k)) k' = peek c k'.
Proof.
  unfold cacheGet, peek. destruct (assoc k (entries c)) as [v|] eqn:E; [|done].
  cbn [snd entries assoc].
  destruct (String.eqb_spec k' k) as [->|Hne]; [done|].
  by apply assoc_unbind_ne.
Qed.

Lemma fst_cacheGet c k : fst (cacheGet c k) = peek c k.
Proof. unfold cacheGet, peek. by destruct (assoc k (entries c)). Qed.

(** What is stored is found, in a cache that can hold anything at all. *)
Lemma peek_cachePut c k v : 0 < capacity c -> peek (cachePut c k v) k = Some v.
Proof.
  intros Hc. unfold cachePut, peek. cbn [entries].
  destruct (capacity c) as [|n]; [lia|]. cbn [take assoc].
  by rewrite String.eqb_refl.
Qed.

Example cache_lru_sample :
  entries (cachePut (snd (cacheGet (cachePut (cachePut (mkCache 2 []) "a" "1")
                                      "b" "2") "a")) "c" "3")
  = [("c", "3"); ("a", "1")].
Proof. reflexivity. Qed.

(* ---------------------------------------------------------------------- *)
(** ** The steps of the function                                           *)
(* ---------------------------------------------------------------------- *)

Ltac unfold_monad :=
  unfold mbind, mret, M_bind, M_ret, await, emit, tryCatch, cache_get,
    errorsShown_has, errorsShown_add, setPending, settlePending in *.

Ltac crunch :=
  unfold_monad; cbn; repeat (case_match; simplify_eq; cbn in * ).

Section Steps.
Context `{Collaborators}.

Lemma omap_snoc {A B} (f : A -> option B) l x :
  omap f (l ++ [x]) = omap f l ++ match f x with Some y => [y] | None => [] end.
Proof. rewrite omap_app. cbn. by destruct (f x). Qed.

(** Building the context leaves the shared state alone; it only calls the
    host, and neither the model stream, nor the cache, nor the error
    dialog. *)
Lemma buildContext_frame c lang w r w1 :
  buildContext c lang w = (r, w1) ->
  cache w1 = cache w /\ errorsShown w1 = errorsShown w
  /\ pending w1 = pending w
  /\ exists evs, log w1 = log w ++ evs
       /\ streamCompleteCalls evs = [] /\ shownMessages evs = []
       /\ cacheReads evs = [].
Proof.
  unfold buildContext. unfold_monad. cbn. intros Hb.
  repeat (case_match; simplify_eq; cbn in * ).
  all: repeat split; try done.
  all: eexists; split; [rewrite <- ?app_assoc; reflexivity | done].
Qed.

(** The miss branch: its result is the verdict on the loop. *)
Lemma generate_fst c p w :
  fst (generate c (langOf c) p w) =
  match theLoop c p w with
  | Ok d => Ok (verdict d)
  | Throw m => Throw m
  | ThrowNullish v => ThrowNullish v
  end.
Proof.
  unfold generate, theLoop, obtained, getGenerator, startFresh, consume,
    verdict.
  crunch; try done.
  all: rewrite length_leb_0 in *; destruct (Js.truthy _); simplify_eq; done.
Qed.

(** The miss branch touches neither the cache nor the set of shown
    errors. *)
Lemma generate_state c p w :
  cache (snd (generate c (langOf c) p w)) = cache w
  /\ errorsShown (snd (generate c (langOf c) p w)) = errorsShown w.
Proof.
  unfold generate, getGenerator, startFresh, consume. crunch; done.
Qed.

(** The host calls of the miss branch. *)
Lemma generate_log c p w :
  log (snd (generate c (langOf c) p w)) =
  log w ++ [EvSetupStatusBar true true]
  ++ (if reuses w (prefix p) then []
      else [EvStreamComplete (prompt p)
              (streamOptions (completionOptions p)
                 (stopSequences (completionOptions p) (langOf c) (options c)
                    (completeMultiline p)))])
  ++ match theLoop c p w with
     | Ok d => if cancelled d then [EvStopStatusBarLoading] else []
     | Throw _ | ThrowNullish _ => []
     end.
Proof.
  unfold generate, theLoop, obtained, reuses, getGenerator, startFresh,
    consume.
  crunch; rewrite <- ?app_assoc; done.
Qed.

Lemma theLoop_cache_get c p k w :
  theLoop c p (snd (cache_get k w)) = theLoop c p w.
Proof.
  unfold theLoop, obtained, cache_get. by destruct (cacheGet (cache w) k).
Qed.

Lemma reuses_cache_get k w pre :
  reuses (snd (cache_get k w)) pre = reuses w pre.
Proof. unfold reuses, cache_get. by destruct (cacheGet (cache w) k). Qed.

Lemma cache_get_frame k w :
  errorsShown (snd (cache_get k w)) = errorsShown w
  /\ pending (snd (cache_get k w)) = pending w
  /\ log (snd (cache_get k w)) = log w ++ [EvCacheGet k]
  /\ forall k', peek (cache (snd (cache_get k w))) k' = peek (cache w) k'.
Proof.
  unfold cache_get. pose proof (peek_cacheGet (cache w) k) as Hp.
  destruct (cacheGet (cache w) k) as [r c']. by cbn in *.
Qed.

(** A hit: the cached text is returned as it is. *)
Lemma complete_hit c lang p w s :
  peek (cache w) (prompt p) = Some s -> Js.truthy s = true ->
  complete c lang p w =
  (Ok (Some (outcomeOf c p s true)), snd (cache_get (prompt p) w)).
Proof.
  intros Hp Ht. unfold complete, cache_get. unfold_monad.
  pose proof (fst_cacheGet (cache w) (prompt p)) as Hf.
  destruct (cacheGet (cache w) (prompt p)) as [r c']. cbn in *.
  rewrite Hf, Hp, Ht. done.
Qed.

(** A miss, whether nothing or the empty string is cached: the [else]
    branch runs after the lookup. *)
Lemma complete_miss c lang p w :
  isMiss (cache w) (prompt p) = true ->
  complete c lang p w = missBranch c lang p (snd (cache_get (prompt p) w)).
Proof.
  unfold isMiss. intros Hm. unfold complete, cache_get. unfold_monad.
  pose proof (fst_cacheGet (cache w) (prompt p)) as Hf.
  destruct (cacheGet (cache w) (prompt p)) as [r c']. cbn in *.
  rewrite Hf. destruct (peek (cache w) (prompt p)) as [s|]; [|done].
  by destruct (Js.truthy s).
Qed.

Lemma missBranch_fst c p w :
  fst (missBranch c (langOf c) p w) =
  match theLoop c p w with
  | Ok d => Ok ((fun t => outcomeOf c p t false) <$> verdict d)
  | Throw m => Throw m
  | ThrowNullish v => ThrowNullish v
  end.
Proof.
  unfold missBranch. unfold_monad. pose proof (generate_fst c p w) as Hg.
  destruct (generate c (langOf c) p w) as [[o|m|v] w']; cbn in *;
    by destruct (theLoop c p w); simplify_eq.
Qed.

(** The loop never ends with a throw of [null] or [undefined]: the
    generator's failure is an error. *)
Lemma theLoop_not_nullish c p w v : theLoop c p w <> ThrowNullish v.
Proof.
  unfold theLoop. intros E.
  pose proof (drain_text (finalGenerator (langOf c) (lineBelowCursor p))
                (token c) (deltas (obtained c p w))
                (failure (obtained c p w)) 0
                (tinit (finalGenerator (langOf c) (lineBelowCursor p))) "")
    as Hd.
  by rewrite E in Hd.
Qed.

Lemma missBranch_snd c p w :
  snd (missBranch c (langOf c) p w) = snd (generate c (langOf c) p w).
Proof.
  unfold missBranch. unfold_monad.
  by destruct (generate c (langOf c) p w) as [[o|m|v] w'].
Qed.

(** The [catch] block: the call resolves to [undefined], and the message
    is shown exactly when it has not been shown before. *)
Lemma onError_run m w :
  exists w',
    onError (CaughtError m) w = (Ok None, w')
    /\ cache w' = cache w /\ pending w' = pending w
    /\ errorsShown w' = {[m]} ∪ errorsShown w
    /\ exists evs, log w' = log w ++ evs
         /\ streamCompleteCalls evs = [] /\ cacheReads evs = []
         /\ shownMessages evs =
            if bool_decide (m ∈ errorsShown w) then [] else [m].
Proof.
  unfold onError, readMessage. crunch.
  all: eexists; split; [reflexivity|]; cbn.
  all: repeat split; try done.
  all: try (eexists; split; [rewrite <- ?app_assoc; reflexivity | done]).
  all: match goal with H : bool_decide _ = true |- _ =>
         apply bool_decide_eq_true in H end.
  all: symmetry; by apply subseteq_union_1_L, singleton_subseteq_l.
Qed.

(** The [catch] block on a thrown [null] or [undefined]: the value is
    printed, reading its message throws, and nothing else is done. *)
Lemma onError_nullish v w :
  onError (CaughtNullish v) w =
  (Throw (cannotReadMessage v),
   mkWorld (cache w) (errorsShown w) (pending w)
     (log w ++ nullishEvents v)).
Proof. reflexivity. Qed.

(** Past the filter and the context, the call is the [// Completion]
    part under the [catch]. *)
Lemma getTabCompletion_prepared c w p w1 :
  prepares c w p w1 ->
  getTabCompletion c w = tryCatch (complete c (langOf c) p) onError w1.
Proof.
  intros [Hf Hb]. unfold getTabCompletion. fold (langOf c). rewrite Hf.
  unfold tryCatch, tryBody. unfold_monad. by rewrite Hb.
Qed.

(** A call that returns an outcome got it from the [// Completion] part. *)
Lemma getTabCompletion_served c w o w2 :
  getTabCompletion c w = (Ok (Some o), w2) ->
  exists p w1, prepares c w p w1
    /\ complete c (langOf c) p w1 = (Ok (Some o), w2).
Proof.
  unfold getTabCompletion, prepares. fold (langOf c).
  destruct (eolFilter _ _ _); [by unfold_monad|].
  unfold tryCatch, tryBody. unfold_monad.
  destruct (buildContext c (langOf c) w) as [[[p|]|m|v] w1] eqn:Hb.
  - destruct (complete c (langOf c) p w1) as [[r|m|v] w'] eqn:Hc.
    + intros ?; simplify_eq. by exists p, w1.
    + intros He. destruct (onError_run m w') as (w'' & Ho & _).
      rewrite Ho in He. simplify_eq.
    + rewrite onError_nullish. intros ?; simplify_eq.
  - intros ?; simplify_eq.
  - intros He. destruct (onError_run m w1) as (w'' & Ho & _).
    rewrite Ho in He. simplify_eq.
  - rewrite onError_nullish. intros ?; simplify_eq.
Qed.

End Steps.

(* ---------------------------------------------------------------------- *)
(** ** The end-of-line filter                                              *)
(* ---------------------------------------------------------------------- *)

Section Filter.
Context `{Collaborators}.

(** C4. When the cursor's line ends with one of the language's
    end-of-line markers and the cursor column is at or past the end of the
    line, the call returns [undefined] at once: the state is left as it
    was, so no host call was made, neither for the model handle, nor to
    the cache, nor to the model. *)
Theorem eol_filter_returns_absent (c : Call) (w : World) (e : string) :
  In e (endOfLine (langOf c)) ->
  Js.endsWith (lineAt (document c) (line (pos c))) e = true ->
  (Z.of_nat (String.length (lineAt (document c) (line (pos c))))
   <= character (pos c))%Z ->
  getTabCompletion c w = (Ok None, w).
Proof.
  intros Hin He Hpos. unfold getTabCompletion. fold (langOf c).
  replace (eolFilter _ _ _) with true; [done|].
  symmetry. unfold eolFilter. apply existsb_exists. exists e.
  split; [done|]. rewrite He. cbn. by apply Z.leb_le.
Qed.

End Filter.

Lemma eol_filter_returns_absent_witness :
  getTabCompletion Sample.atEndOfStatement Sample.world0
  = (Ok None, Sample.world0).
Proof.
  apply (eol_filter_returns_absent Sample.atEndOfStatement Sample.world0 ";").
  - simpl. by left.
  - reflexivity.
  - vm_compute. discriminate.
Defined.

(* ---------------------------------------------------------------------- *)
(** ** The cache probe                                                     *)
(* ---------------------------------------------------------------------- *)

Section Probe.
Context `{Collaborators}.

(** The [else] branch at line 120 runs, under the [catch], when the lookup
    finds nothing or the empty string: the status bar is set to loading
    right after the lookup, and an outcome, if one is returned, is not a
    cache hit and carries the accumulated text, found not blank, with the
    white space at its end removed. *)
Lemma probe_miss (c : Call) (w : World) (p : Prepared) (w1 : World) :
  prepares c w p w1 ->
  isMiss (cache w1) (prompt p) = true ->
  getTabCompletion c w =
    tryCatch (missBranch c (langOf c) p) onError
      (snd (cache_get (prompt p) w1))
  /\ (exists evs,
        log (snd (getTabCompletion c w)) =
        log w1 ++ EvCacheGet (prompt p) :: EvSetupStatusBar true true :: evs)
  /\ forall o w2,
       getTabCompletion c w = (Ok (Some o), w2) ->
       AutocompleteOutcome.cacheHit o = false
       /\ exists d,
            theLoop c p w1 = Ok d /\ cancelled d = false
            /\ Js.truthy (Js.trim (text d)) = true
            /\ AutocompleteOutcome.completion o = Js.trimEnd (text d).
Proof.
  intros Hp Hm. rewrite (getTabCompletion_prepared c w p w1 Hp).
  unfold tryCatch. rewrite complete_miss by done.
  split; [done|].
  pose proof (missBranch_fst c p (snd (cache_get (prompt p) w1))) as Hf.
  pose proof (missBranch_snd c p (snd (cache_get (prompt p) w1))) as Hs.
  pose proof (generate_log c p (snd (cache_get (prompt p) w1))) as Hl.
  destruct (cache_get_frame (prompt p) w1) as (_ & _ & Hl1 & _).
  rewrite theLoop_cache_get in Hf. rewrite Hl1, <- app_assoc in Hl.
  destruct (missBranch c (langOf c) p _) as [[r|m|v] w2]; cbn in Hf, Hs;
    subst w2.
  - split; [cbn; eexists; rewrite Hl; cbn; reflexivity|].
    intros o w2 ?. simplify_eq.
    destruct (theLoop c p w1) as [d| |]; simplify_eq.
    unfold verdict in *. destruct (cancelled d) eqn:Ec; [done|].
    destruct (Js.truthy (Js.trim (text d))) eqn:Et; [|done].
    cbn in *. simplify_eq. split; [done|]. by exists d.
  - destruct (onError_run m (snd (generate c (langOf c) p
                 (snd (cache_get (prompt p) w1)))))
      as (w3 & -> & _ & _ & _ & evs' & Hl3 & _).
    split; [|done]. cbn. eexists.
    rewrite Hl3, Hl. cbn. rewrite <- !app_assoc. cbn. reflexivity.
  - rewrite onError_nullish. split; [|done]. cbn. eexists.
    rewrite Hl. cbn. rewrite <- !app_assoc. cbn. reflexivity.
Qed.

(** C10. When the lookup for the rendered prompt finds a non-empty
    string, the call returns an outcome with [cacheHit = true] whose
    completion is that string as it is, untrimmed and unchecked, the
    other fields being those of the call; after the lookup no host call
    is made: the model is not invoked and the pending stream is left
    alone. When the lookup finds the empty string the call goes on
    exactly as when it finds nothing: the [else] branch runs under the
    [catch], the status bar is set to loading right after the lookup,
    and an outcome, if one is returned, has [cacheHit = false] and the
    accumulated text, found not blank, with its end trimmed. *)
Theorem cache_hit_served_verbatim (c : Call) (w : World) (p : Prepared)
    (w1 : World) :
  prepares c w p w1 ->
  match peek (cache w1) (prompt p) with
  | Some (String a r as s) =>
      exists o w2,
        getTabCompletion c w = (Ok (Some o), w2)
        /\ AutocompleteOutcome.cacheHit o = true
        /\ AutocompleteOutcome.completion o = s
        /\ AutocompleteOutcome.prompt o = prompt p
        /\ AutocompleteOutcome.modelProvider o = providerName (llm p)
        /\ AutocompleteOutcome.modelName o = model (llm p)
        /\ AutocompleteOutcome.completionOptions o = completionOptions p
        /\ AutocompleteOutcome.time o = (snd (dateNow c) - fst (dateNow c))%Z
        /\ log w2 = log w1 ++ [EvCacheGet (prompt p)]
        /\ streamCompleteCalls (eventsSince (length (log w)) w2) = []
        /\ pending w2 = pending w1
  | Some "" | None =>
      getTabCompletion c w =
        tryCatch (missBranch c (langOf c) p) onError
          (snd (cache_get (prompt p) w1))
      /\ (exists evs,
            log (snd (getTabCompletion c w)) =
            log w1 ++ EvCacheGet (prompt p) :: EvSetupStatusBar true true
                      :: evs)
      /\ forall o w2,
           getTabCompletion c w = (Ok (Some o), w2) ->
           AutocompleteOutcome.cacheHit o = false
           /\ exists d,
                theLoop c p w1 = Ok d /\ cancelled d = false
                /\ Js.truthy (Js.trim (text d)) = true
                /\ AutocompleteOutcome.completion o = Js.trimEnd (text d)
  end.
Proof.
  intros Hp.
  destruct (peek (cache w1) (prompt p)) as [[|a r]|] eqn:Hpk.
  - apply probe_miss; [done|]. unfold isMiss. by rewrite Hpk.
  - rewrite (getTabCompletion_prepared c w p w1 Hp).
    destruct Hp as [_ Hb]. apply buildContext_frame in Hb.
    destruct Hb as (_ & _ & _ & evs & Hlog & Hsc & _).
    exists (outcomeOf c p (String a r) true),
      (snd (cache_get (prompt p) w1)).
    destruct (cache_get_frame (prompt p) w1) as (_ & Hpe & Hl & _).
    unfold tryCatch. rewrite (complete_hit _ _ _ _ _ Hpk eq_refl).
    repeat split; try done.
    unfold eventsSince. rewrite Hl, Hlog, <- app_assoc, drop_app_length.
    unfold streamCompleteCalls in *. by rewrite omap_app, Hsc.
  - apply probe_miss; [done|]. unfold isMiss. by rewrite Hpk.
Qed.

End Probe.

(** The empty string in the cache: the model is asked, as on a miss. *)
Example cached_empty_string_sample :
  fst (getTabCompletion Sample.call Sample.worldCachedEmpty)
  = Ok (Some Sample.served)
  /\ streamCompleteCalls
       (log (snd (getTabCompletion Sample.call Sample.worldCachedEmpty)))
     = [(prompt Sample.prepared, Sample.passedOptions)].
Proof. split; reflexivity. Qed.

(** A text with blanks around it in the cache is served as it is; the
    empty string in the cache sends the call to the model. *)
Lemma cache_hit_served_verbatim_witness :
  (exists o w2,
     getTabCompletion Sample.call Sample.worldCached = (Ok (Some o), w2)
     /\ AutocompleteOutcome.cacheHit o = true
     /\ AutocompleteOutcome.completion o = "  h(2)  "
     /\ AutocompleteOutcome.prompt o = prompt Sample.prepared
     /\ AutocompleteOutcome.modelProvider o = "ollama"
     /\ AutocompleteOutcome.modelName o = "codellama-7b"
     /\ AutocompleteOutcome.completionOptions o
        = Template.completionOptions Sample.fillTemplate
     /\ AutocompleteOutcome.time o = 250%Z
     /\ log w2 = log (Sample.afterContext Sample.worldCached)
                 ++ [EvCacheGet (prompt Sample.prepared)]
     /\ streamCompleteCalls
          (eventsSince (length (log Sample.worldCached)) w2) = []
     /\ pending w2 = pending (Sample.afterContext Sample.worldCached))
  /\ (getTabCompletion Sample.call Sample.worldCachedEmpty =
        tryCatch (missBranch Sample.call Sample.typescript Sample.prepared)
          onError
          (snd (cache_get (prompt Sample.prepared)
                  (Sample.afterContext Sample.worldCachedEmpty)))
      /\ (exists evs,
            log (snd (getTabCompletion Sample.call Sample.worldCachedEmpty)) =
            log (Sample.afterContext Sample.worldCachedEmpty)
            ++ EvCacheGet (prompt Sample.prepared)
               :: EvSetupStatusBar true true :: evs)
      /\ forall o w2,
           getTabCompletion Sample.call Sample.worldCachedEmpty
           = (Ok (Some o), w2) ->
           AutocompleteOutcome.cacheHit o = false
           /\ exists d,
                theLoop Sample.call Sample.prepared
                  (Sample.afterContext Sample.worldCachedEmpty) = Ok d
                /\ cancelled d = false
                /\ Js.truthy (Js.trim (text d)) = true
                /\ AutocompleteOutcome.completion o = Js.trimEnd (text d)).
Proof.
  split.
  - apply (cache_hit_served_verbatim Sample.call Sample.worldCached
             Sample.prepared (Sample.afterContext Sample.worldCached)).
    split; reflexivity.
  - apply (cache_hit_served_verbatim Sample.call Sample.worldCachedEmpty
             Sample.prepared (Sample.afterContext Sample.worldCachedEmpty)).
    split; reflexivity.
Defined.

(* ---------------------------------------------------------------------- *)
(** ** The cache is read, never written                                    *)
(* ---------------------------------------------------------------------- *)

Section Store.
Context `{Collaborators}.

(** No call changes what the cache holds. *)
Lemma cache_contents_preserved (c : Call) (w : World) (k : string) :
  peek (cache (snd (getTabCompletion c w))) k = peek (cache w) k.
Proof.
  unfold getTabCompletion. fold (langOf c).
  destruct (eolFilter _ _ _); [done|].
  unfold tryCatch, tryBody. unfold_monad.
  destruct (buildContext c (langOf c) w) as [[[p|]|m|v] w1] eqn:Hb;
    apply buildContext_frame in Hb; destruct Hb as (Hc & _).
  - assert (peek (cache (snd (complete c (langOf c) p w1))) k
            = peek (cache w) k) as Hk.
    { rewrite <- Hc. clear Hc.
      destruct (cache_get_frame (prompt p) w1) as (_ & _ & _ & Hpk).
      destruct (isMiss (cache w1) (prompt p)) eqn:Hm.
      - rewrite complete_miss by done. rewrite missBranch_snd.
        destruct (generate_state c p (snd (cache_get (prompt p) w1)))
          as [-> _]. apply Hpk.
      - unfold isMiss in Hm.
        destruct (peek (cache w1) (prompt p)) as [s|] eqn:E; [|done].
        rewrite (complete_hit _ _ _ _ s); [apply Hpk|done|].
        by destruct (Js.truthy s). }
    destruct (complete c (langOf c) p w1) as [[r|m|v] w'] eqn:Hcm;
      [done| |by rewrite onError_nullish].
    destruct (onError_run m w') as (w'' & -> & Hc' & _).
    cbn in *. by rewrite Hc'.
  - cbn. by rewrite Hc.
  - destruct (onError_run m w1) as (w'' & -> & Hc' & _).
    cbn. by rewrite Hc', Hc.
  - rewrite onError_nullish. cbn. by rewrite Hc.
Qed.

(** An outcome that is not a cache hit carries a non-empty text. *)
Lemma served_miss_truthy (c : Call) (w : World) (o : AutocompleteOutcome.t) (w2 : World) :
  getTabCompletion c w = (Ok (Some o), w2) ->
  AutocompleteOutcome.cacheHit o = false ->
  Js.truthy (AutocompleteOutcome.completion o) = true.
Proof.
  intros Hs Hh. apply getTabCompletion_served in Hs.
  destruct Hs as (p & w1 & _ & Hc).
  destruct (isMiss (cache w1) (prompt p)) eqn:Hm.
  - rewrite complete_miss in Hc by done.
    pose proof (missBranch_fst c p (snd (cache_get (prompt p) w1))) as Hf.
    rewrite Hc in Hf. cbn in Hf.
    destruct (theLoop c p _) as [d| |]; [|done..].
    unfold verdict in Hf. destruct (cancelled d); [done|].
    destruct (Js.truthy (Js.trim (text d))) eqn:Ht; [|done].
    cbn in Hf. simplify_eq. cbn. by apply trim_truthy_trimEnd.
  - unfold isMiss in Hm.
    destruct (peek (cache w1) (prompt p)) as [s|] eqn:E; [|done].
    rewrite (complete_hit _ _ _ _ s) in Hc; [|done|by destruct (Js.truthy s)].
    simplify_eq.
Qed.

(** C1, as the code has it. A call that returns an outcome after a cache
    miss leaves the cache holding exactly what it held: the function
    reads the cache and never writes it. Once the returned text is put in
    the cache under the returned prompt (the cache able to hold an entry),
    a second call that renders the same prompt returns an outcome with
    [cacheHit = true] and the same completion text. *)
Theorem served_text_hits_once_stored (c : Call) (w : World) (o : AutocompleteOutcome.t)
    (w1 : World) :
  getTabCompletion c w = (Ok (Some o), w1) ->
  AutocompleteOutcome.cacheHit o = false ->
  (forall k, peek (cache w1) k = peek (cache w) k)
  /\ forall (c2 : Call) (w2 : World) (p2 : Prepared) (w2' : World),
       0 < capacity (cache w1) ->
       cache w2
       = cachePut (cache w1) (AutocompleteOutcome.prompt o) (AutocompleteOutcome.completion o) ->
       prepares c2 w2 p2 w2' ->
       prompt p2 = AutocompleteOutcome.prompt o ->
       exists o2 w3,
         getTabCompletion c2 w2 = (Ok (Some o2), w3)
         /\ AutocompleteOutcome.cacheHit o2 = true
         /\ AutocompleteOutcome.completion o2 = AutocompleteOutcome.completion o.
Proof.
  intros Hs Hh. split.
  - intros k. pose proof (cache_contents_preserved c w k) as Hk.
    by rewrite Hs in Hk.
  - intros c2 w2 p2 w2' Hcap Hput Hp Hpr.
    pose proof (served_miss_truthy c w o w1 Hs Hh) as Ht.
    rewrite (getTabCompletion_prepared c2 w2 p2 w2' Hp).
    destruct Hp as [_ Hb]. apply buildContext_frame in Hb.
    destruct Hb as (Hc & _).
    unfold tryCatch.
    rewrite (complete_hit _ _ _ _ (AutocompleteOutcome.completion o)); [|..|done].
    + by eexists _, _.
    + rewrite Hc, Hput, Hpr. by apply peek_cachePut.
Qed.

End Store.

(** C1, as stated, fails: the sample call returns an outcome after a
    miss, nothing is stored under its prompt, and the same call made again
    in the state the first one left misses again. *)
Lemma second_call_misses_counterexample :
  getTabCompletion Sample.call Sample.world0
  = (Ok (Some Sample.served), Sample.afterServed)
  /\ AutocompleteOutcome.cacheHit Sample.served = false
  /\ peek (cache Sample.afterServed) (AutocompleteOutcome.prompt Sample.served) = None
  /\ exists o2 w2,
       getTabCompletion Sample.call Sample.afterServed = (Ok (Some o2), w2)
       /\ AutocompleteOutcome.cacheHit o2 = false.
Proof.
  repeat split; try reflexivity.
  eexists _, _. split; reflexivity.
Qed.

Lemma served_text_hits_once_stored_witness :
  (forall k, peek (cache Sample.afterServed) k = peek (cache Sample.world0) k)
  /\ exists o2 w3,
       getTabCompletion Sample.call
         (Sample.stored Sample.afterServed Sample.served)
       = (Ok (Some o2), w3)
       /\ AutocompleteOutcome.cacheHit o2 = true
       /\ AutocompleteOutcome.completion o2 = "g(1);".
Proof.
  destruct (served_text_hits_once_stored Sample.call Sample.world0
              Sample.served Sample.afterServed eq_refl eq_refl)
    as [Hkeep Hhit].
  split; [exact Hkeep|].
  apply (Hhit Sample.call
           (Sample.stored Sample.afterServed Sample.served)
           Sample.prepared
           (Sample.afterContext
              (Sample.stored Sample.afterServed Sample.served))).
  - vm_compute. lia.
  - reflexivity.
  - split; reflexivity.
  - reflexivity.
Defined.

(* ---------------------------------------------------------------------- *)
(** ** The model call on a miss                                            *)
(* ---------------------------------------------------------------------- *)

Section ModelCall.
Context `{Collaborators}.

(** A call that misses the cache: its result is the verdict on the loop,
    a throw of an error by the generator giving [undefined]; and the
    model is invoked once, unless a pending stream is shared. *)
Lemma miss_run (c : Call) (w : World) (p : Prepared) (w1 : World) :
  prepares c w p w1 ->
  isMiss (cache w1) (prompt p) = true ->
  fst (getTabCompletion c w) =
    match theLoop c p w1 with
    | Ok d => Ok ((fun t => outcomeOf c p t false) <$> verdict d)
    | Throw _ => Ok None
    | ThrowNullish v => Throw (cannotReadMessage v)
    end
  /\ exists evs,
       log (snd (getTabCompletion c w)) = log w ++ evs
       /\ streamCompleteCalls evs =
          if reuses w1 (prefix p) then []
          else [(prompt p,
                 streamOptions (completionOptions p)
                   (stopSequences (completionOptions p) (langOf c)
                      (options c) (completeMultiline p)))].
Proof.
  intros Hp Hm. rewrite (getTabCompletion_prepared c w p w1 Hp).
  destruct Hp as [_ Hb]. apply buildContext_frame in Hb.
  destruct Hb as (_ & _ & _ & evs & Hlog & Hsc & _).
  unfold tryCatch. rewrite complete_miss by done.
  set (w1' := snd (cache_get (prompt p) w1)).
  pose proof (missBranch_fst c p w1') as Hf.
  pose proof (missBranch_snd c p w1') as Hs.
  pose proof (generate_log c p w1') as Hl.
  destruct (cache_get_frame (prompt p) w1) as (_ & _ & Hl1 & _).
  subst w1'. rewrite theLoop_cache_get, reuses_cache_get in *.
  rewrite Hl1, Hlog in Hl.
  destruct (missBranch c (langOf c) p _) as [[r|m|v] w2]; cbn in Hf, Hs;
    subst w2.
  - split.
    + cbn. by destruct (theLoop c p w1); simplify_eq.
    + cbn. eexists. split; [rewrite Hl, <- !app_assoc; reflexivity|].
      unfold streamCompleteCalls in *. rewrite !omap_app, Hsc. cbn.
      destruct (reuses w1 (prefix p)); cbn;
        by destruct (theLoop c p w1) as [[? [] ? ?]| |].
  - destruct (onError_run m (snd (generate c (langOf c) p
                 (snd (cache_get (prompt p) w1)))))
      as (w3 & -> & _ & _ & _ & evs' & Hl3 & Hsc3 & _).
    split.
    + cbn. by destruct (theLoop c p w1).
    + cbn. eexists. split; [rewrite Hl3, Hl, <- !app_assoc; reflexivity|].
      unfold streamCompleteCalls in *. rewrite !omap_app, Hsc, Hsc3. cbn.
      destruct (reuses w1 (prefix p)); cbn;
        by destruct (theLoop c p w1) as [[? [] ? ?]| |].
  - destruct (theLoop c p w1) eqn:El; simplify_eq.
    by apply theLoop_not_nullish in El.
Qed.

(** Where the completion options in hand come from. *)
Lemma prepares_completionOptions (c : Call) (w : World) (p : Prepared)
    (w1 : World) :
  prepares c w p w1 ->
  completionOptions p =
  match template (options c) with
  | Some t =>
      if Js.truthy t then Some emptyObject
      else Template.completionOptions (getTemplateForModel (model (llm p)))
  | None => Template.completionOptions (getTemplateForModel (model (llm p)))
  end.
Proof.
  intros [_ Hb]. unfold buildContext in Hb. unfold_monad. cbn in Hb.
  repeat (case_match; simplify_eq; cbn in * ); done.
Qed.

(** C2, as the code has it. On a cache miss on which a stream is started,
    the stop list passed to the model call is the default stop sequences,
    then the two separators, then the language's stop words. The default
    stop sequences are the [stop] list of the completion options that
    [getTemplateForModel] gives for the model, none if it gives none,
    when [options.template] is absent or empty; under a non-empty
    [options.template] there are none. A single newline is put in front
    of the list when [multilineCompletions] is ["never"], and when it is
    ["auto"] and the prompt construction did not ask for a multi-line
    completion; never when it is ["always"]. *)
Theorem stop_sequences_passed (c : Call) (w : World) (p : Prepared)
    (w1 : World) :
  prepares c w p w1 ->
  isMiss (cache w1) (prompt p) = true ->
  reuses w1 (prefix p) = false ->
  exists o,
    streamCompleteCalls
      (eventsSince (length (log w)) (snd (getTabCompletion c w)))
    = [(prompt p, o)]
    /\ stop o =
       Some ((match multilineCompletions (options c) with
              | always => []
              | never => [Js.LF]
              | auto => if completeMultiline p then [] else [Js.LF]
              end)
             ++ (match template (options c) with
                 | Some (String _ _) => []
                 | Some "" | None =>
                     match Template.completionOptions
                             (getTemplateForModel (model (llm p))) with
                     | Some {| stop := Some l |} => l
                     | _ => []
                     end
                 end)
             ++ [Js.LF +:+ Js.LF; "```"]
             ++ stopWords (langOf c)).
Proof.
  intros Hp Hm Hr.
  destruct (miss_run c w p w1 Hp Hm) as (_ & evs & Hl & Hsc).
  rewrite Hr in Hsc. eexists. split.
  - unfold eventsSince. rewrite Hl, drop_app_length. exact Hsc.
  - cbn. unfold stopSequences.
    rewrite (prepares_completionOptions c w p w1 Hp).
    destruct (template (options c)) as [[|a t]|]; cbn;
      destruct (Template.completionOptions
                  (getTemplateForModel (model (llm p)))) as [[? ? [l|] ?]|];
      by destruct (multilineCompletions (options c)), (completeMultiline p).
Qed.

(** C9, as the code has it. On a cache miss [streamComplete] is invoked
    once when the reuse manager starts a stream, and not at all when it
    shares a pending one. When invoked, it is given the rendered prompt
    and the completion options in hand with [temperature] set to 0, [raw]
    set to true and [stop] set to the computed stop list, their other
    properties kept; the options in hand are the empty object under a
    template override and the template's own otherwise. *)
Theorem stream_options_passed (c : Call) (w : World) (p : Prepared)
    (w1 : World) :
  prepares c w p w1 ->
  isMiss (cache w1) (prompt p) = true ->
  streamCompleteCalls
    (eventsSince (length (log w)) (snd (getTabCompletion c w)))
  = (if reuses w1 (prefix p) then []
     else [(prompt p,
            {| temperature := Some 0%Q;
               raw := Some true;
               stop := Some (stopSequences (completionOptions p) (langOf c)
                               (options c) (completeMultiline p));
               others := others (spread (completionOptions p)) |})])
  /\ completionOptions p =
     match template (options c) with
     | Some t =>
         if Js.truthy t then Some emptyObject
         else Template.completionOptions (getTemplateForModel (model (llm p)))
     | None => Template.completionOptions (getTemplateForModel (model (llm p)))
     end.
Proof.
  intros Hp Hm. split; [|by eapply prepares_completionOptions].
  destruct (miss_run c w p w1 Hp Hm) as (_ & evs & Hl & Hsc).
  unfold eventsSince. by rewrite Hl, drop_app_length.
Qed.
End ModelCall.

(** C2, as stated, fails: with [multilineCompletions] set to ["auto"],
    which is not ["always"], the stop list passed by the sample call has
    no single newline in front. And with a template of the user's own the
    list passed has nothing of the stop sequences that come with the
    model. *)
Lemma stop_list_counterexample :
  multilineCompletions (options Sample.call) <> always
  /\ streamCompleteCalls (log (snd (getTabCompletion Sample.call Sample.world0)))
     = [(prompt Sample.prepared, Sample.passedOptions)]
  /\ stop Sample.passedOptions
     = Some ["<EOT>"; Js.LF +:+ Js.LF; "```"; "function"; "class"]
  /\ match Template.completionOptions
             (@getTemplateForModel Sample.host
                (model (llm MoreSamples.preparedOverride))) with
     | Some o => stop o
     | None => None
     end = Some ["<EOT>"]
  /\ map (fun x => stop (snd x))
       (streamCompleteCalls
          (log (snd (getTabCompletion MoreSamples.callOverride
                       Sample.world0))))
     = [Some [Js.LF +:+ Js.LF; "```"; "function"; "class"]].
Proof. repeat split; [discriminate|reflexivity..]. Qed.

(** The sample call passes the stop list of the model's template; with a
    template of the user's own the list has none of it. *)
Lemma stop_sequences_passed_witness :
  (exists o,
     streamCompleteCalls
       (eventsSince (length (log Sample.world0))
          (snd (getTabCompletion Sample.call Sample.world0)))
     = [(prompt Sample.prepared, o)]
     /\ stop o
        = Some ["<EOT>"; Js.LF +:+ Js.LF; "```"; "function"; "class"])
  /\ (exists o,
        streamCompleteCalls
          (eventsSince (length (log Sample.world0))
             (snd (getTabCompletion MoreSamples.callOverride Sample.world0)))
        = [(prompt MoreSamples.preparedOverride, o)]
        /\ stop o = Some [Js.LF +:+ Js.LF; "```"; "function"; "class"]).
Proof.
  split.
  - apply (stop_sequences_passed Sample.call Sample.world0 Sample.prepared
             (Sample.afterContext Sample.world0)).
    + split; reflexivity.
    + reflexivity.
    + reflexivity.
  - apply (stop_sequences_passed MoreSamples.callOverride Sample.world0
             MoreSamples.preparedOverride
             (Sample.afterContext Sample.world0)).
    + split; reflexivity.
    + reflexivity.
    + reflexivity.
Defined.

(** C9, as stated, fails: the sample call misses the cache while a stream
    for a prefix of its prefix is pending; it is served from that stream
    and [streamComplete] is not invoked. *)
Lemma shared_stream_counterexample :
  isMiss (cache (Sample.afterContext Sample.worldShared))
    (prompt Sample.prepared) = true
  /\ fst (getTabCompletion Sample.call Sample.worldShared)
     = Ok (Some (outcomeOf Sample.call Sample.prepared "h(2);" false))
  /\ streamCompleteCalls
       (log (snd (getTabCompletion Sample.call Sample.worldShared))) = [].
Proof. repeat split; reflexivity. Qed.

Lemma stream_options_passed_witness :
  streamCompleteCalls
    (eventsSince (length (log Sample.world0))
       (snd (getTabCompletion Sample.call Sample.world0)))
  = [(prompt Sample.prepared, Sample.passedOptions)]
  /\ completionOptions Sample.prepared
     = Template.completionOptions Sample.fillTemplate.
Proof.
  apply (stream_options_passed Sample.call Sample.world0 Sample.prepared
           (Sample.afterContext Sample.world0)).
  - split; reflexivity.
  - reflexivity.
Defined.

(* ---------------------------------------------------------------------- *)
(** ** The stream pipeline                                                 *)
(* ---------------------------------------------------------------------- *)

Section Pipeline.
Context `{Collaborators}.




(** C5. On a cache miss, when the accumulated text trims to the empty
    string the call returns [undefined] and the cache holds what it
    held. *)
Theorem empty_completion_suppressed (c : Call) (w : World) (p : Prepared)
    (w1 : World) (d : Drained) :
  prepares c w p w1 ->
  isMiss (cache w1) (prompt p) = true ->
  theLoop c p w1 = Ok d ->
  Js.trim (text d) = "" ->
  fst (getTabCompletion c w) = Ok None
  /\ forall k, peek (cache (snd (getTabCompletion c w))) k = peek (cache w) k.
Proof.
  intros Hp Hm Hl Ht. destruct (miss_run c w p w1 Hp Hm) as (Hr & _).
  rewrite Hl in Hr. split; [|intros k; apply cache_contents_preserved].
  rewrite Hr. unfold verdict. rewrite Ht. by destruct (cancelled d).
Qed.

End Pipeline.


Example pipeline_sample :
  theLoop Sample.call Sample.prepared (Sample.afterContext Sample.world0)
  = Ok (mkDrained ("g(1);" +:+ Js.LF +:+ "  ") false 4 None).
Proof. reflexivity. Qed.

(** The stopper returning at the line below the cursor: the text stops
    before that line, and the second delta is never asked for. *)
Example similar_line_sample :
  theLoop Sample.callCatchingUp (Sample.preparedFor Sample.catchingUp)
    (Sample.afterContext Sample.world0)
  = Ok (mkDrained ("g(1);" +:+ Js.LF) false 1
          (Some (mkRawStream ["return 0;"] None)))
  /\ (AutocompleteOutcome.completion <$>
       match fst (getTabCompletion Sample.callCatchingUp Sample.world0) with
       | Ok o => o
       | _ => None
       end) = Some "g(1);".
Proof. split; reflexivity. Qed.



Lemma empty_completion_suppressed_witness :
  fst (getTabCompletion Sample.callBlank Sample.world0) = Ok None
  /\ forall k,
       peek (cache (snd (getTabCompletion Sample.callBlank Sample.world0))) k
       = peek (cache Sample.world0) k.
Proof.
  apply (empty_completion_suppressed Sample.callBlank Sample.world0
           (Sample.preparedFor Sample.blank)
           (Sample.afterContext Sample.world0)
           (mkDrained ("  " +:+ Js.LF +:+ " ") false 3 None)).
  - split; reflexivity.
  - reflexivity.
  - reflexivity.
  - reflexivity.
Defined.

(* ---------------------------------------------------------------------- *)
(** ** The symbol lookup under its timer                                   *)
(* ---------------------------------------------------------------------- *)

Section Lookup.
Context `{Collaborators}.



End Lookup.


(** A lookup that answers in time does reach the prompt. *)
Example lookup_in_time_sample :
  AutocompleteOutcome.prompt <$>
    (match fst (getTabCompletion
                  (withDefinitions Sample.call (SettlesAt 20 (Ok ["S;"])))
                  Sample.world0) with
     | Ok o => o
     | _ => None
     end)
  = Some ("<PRE> S;const a = f();" +:+ Js.LF +:+ "const b =  <SUF>"
          +:+ Js.LF +:+ "return a + b; <MID>").
Proof. reflexivity. Qed.

(* ---------------------------------------------------------------------- *)
(** ** The error boundary                                                  *)
(* ---------------------------------------------------------------------- *)

Section Boundary.
Context `{Collaborators}.

(** The body of [try] shows no error and leaves the set of shown errors
    alone. *)
Lemma tryBody_frame (c : Call) (w : World) :
  errorsShown (snd (tryBody c (langOf c) w)) = errorsShown w
  /\ exists evs, log (snd (tryBody c (langOf c) w)) = log w ++ evs
       /\ shownMessages evs = [].
Proof.
  unfold tryBody. unfold_monad.
  destruct (buildContext c (langOf c) w) as [[[p|]|m|v] w1] eqn:Hb;
    apply buildContext_frame in Hb;
    destruct Hb as (_ & He & _ & evs & Hl & _ & Hs & _).
  2,3,4: cbn; split; [done|by exists evs].
  destruct (cache_get_frame (prompt p) w1) as (He1 & _ & Hl1 & _).
  destruct (isMiss (cache w1) (prompt p)) eqn:Hm.
  - rewrite complete_miss by done. rewrite missBranch_snd.
    destruct (generate_state c p (snd (cache_get (prompt p) w1))) as [_ ->].
    rewrite generate_log, Hl1, Hl, He1, He. split; [done|].
    eexists. split; [rewrite <- !app_assoc; reflexivity|].
    unfold shownMessages in *. rewrite !omap_app, Hs. cbn.
    destruct (reuses _ _); cbn;
      by destruct (theLoop _ _ _) as [[? [] ? ?]| |].
  - unfold isMiss in Hm.
    destruct (peek (cache w1) (prompt p)) as [s|] eqn:E; [|done].
    rewrite (complete_hit _ _ _ _ s); [|done|by destruct (Js.truthy s)].
    cbn. rewrite Hl1, Hl, He1, He. split; [done|].
    eexists. split; [rewrite <- !app_assoc; reflexivity|].
    unfold shownMessages in *. by rewrite !omap_app, Hs.
Qed.

Lemma getTabCompletion_shownOnce (c : Call) (w : World) :
  shownOnce w -> shownOnce (snd (getTabCompletion c w)).
Proof.
  intros [Hnd Hin]. unfold getTabCompletion. fold (langOf c).
  destruct (eolFilter _ _ _); [done|].
  unfold tryCatch.
  destruct (tryBody_frame c w) as (He & evs & Hl & Hs).
  destruct (tryBody c (langOf c) w) as [[r|m|v] w1]; cbn in He, Hl.
  3: { rewrite onError_nullish. cbn. unfold shownOnce, shownMessages in *.
       cbn. rewrite Hl, !omap_app, Hs, He. cbn. by rewrite !app_nil_r. }
  - cbn. unfold shownOnce, shownMessages in *.
    rewrite Hl, omap_app, Hs, app_nil_r, He. done.
  - destruct (onError_run m w1)
      as (w2 & -> & _ & _ & He2 & evs2 & Hl2 & _ & _ & Hs2).
    cbn. unfold shownOnce, shownMessages in *. rewrite He in He2, Hs2.
    rewrite Hl2, Hl, !omap_app, Hs, app_nil_r, Hs2, He2.
    case_bool_decide as Hd.
    + rewrite app_nil_r. split; [done|]. intros m' Hm'.
      by apply elem_of_union_r, Hin.
    + split.
      * apply NoDup_app. repeat split; [done| |apply NoDup_singleton].
        intros m' Hm' ->%list_elem_of_singleton. by apply Hd, Hin.
      * intros m' [Hm'| ->%list_elem_of_singleton]%elem_of_app.
        -- by apply elem_of_union_r, Hin.
        -- by apply elem_of_union_l, elem_of_singleton.
Qed.

Lemma runCalls_shownOnce (cs : list Call) : forall w,
  shownOnce w -> shownOnce (runCalls cs w).
Proof.
  induction cs as [|c cs IH]; intros w Hw; [done|].
  cbn. apply IH. by apply getTabCompletion_shownOnce.
Qed.

(** C6. The [catch] block does not hold a thrown [null] or [undefined]:
    when the body of [try] throws one, the value is printed, the read of
    its [message] throws a [TypeError], and the call rejects with it;
    nothing is shown and the set of shown errors is left as it was. *)
Theorem nullish_throw_escapes_catch (c : Call) (w : World) (v : Nullish)
    (w1 : World) :
  eolFilter (langOf c) (lineAt (document c) (line (pos c))) (pos c) = false ->
  tryBody c (langOf c) w = (ThrowNullish v, w1) ->
  getTabCompletion c w =
    (Throw (cannotReadMessage v),
     mkWorld (cache w1) (errorsShown w1) (pending w1)
       (log w1 ++ [EvConsoleWarn (printed (CaughtNullish v))]))
  /\ shownMessages (eventsSince (length (log w)) (snd (getTabCompletion c w)))
     = []
  /\ errorsShown (snd (getTabCompletion c w)) = errorsShown w.
Proof.
  intros Hf Hb.
  assert (getTabCompletion c w =
          (Throw (cannotReadMessage v),
           mkWorld (cache w1) (errorsShown w1) (pending w1)
             (log w1 ++ [EvConsoleWarn (printed (CaughtNullish v))]))) as Hg.
  { unfold getTabCompletion. fold (langOf c). rewrite Hf.
    unfold tryCatch. by rewrite Hb. }
  destruct (tryBody_frame c w) as (He & evs & Hl & Hs).
  rewrite Hb in He, Hl. cbn in He, Hl.
  rewrite Hg. cbn. repeat split; [|done].
  unfold eventsSince, shownMessages in *. cbn.
  rewrite Hl, <- app_assoc, drop_app_length, omap_app, Hs. done.
Qed.

(** X21. What the [catch] block does hold. A call either returns or
    rejects with the [TypeError] above, the body of [try] having thrown
    [null] or [undefined]. When the body throws an error, the call returns
    [undefined], and the error's message is shown exactly when it is not
    yet in the set of shown errors. Over any series of calls from a state
    in which nothing has been shown, no message is shown twice. *)
Theorem thrown_errors_caught_and_shown_once :
  (forall (c : Call) (w : World),
     (exists r w', getTabCompletion c w = (Ok r, w'))
     \/ (exists v w1,
           tryBody c (langOf c) w = (ThrowNullish v, w1)
           /\ fst (getTabCompletion c w) = Throw (cannotReadMessage v)))
  /\ (forall (c : Call) (w : World) (m : string) (w1 : World),
        tryBody c (langOf c) w = (Throw m, w1) ->
        eolFilter (langOf c) (lineAt (document c) (line (pos c))) (pos c)
        = false ->
        exists w2,
          getTabCompletion c w = (Ok None, w2)
          /\ shownMessages (eventsSince (length (log w1)) w2)
             = if bool_decide (m ∈ errorsShown w) then [] else [m])
  /\ (forall (cs : list Call) (ch : Cache) (pd : option PendingStream),
        NoDup (shownMessages (log (runCalls cs (mkWorld ch ∅ pd []))))).
Proof.
  repeat split.
  - intros c w. unfold getTabCompletion. fold (langOf c).
    destruct (eolFilter _ _ _); [by left; eexists _, _|].
    unfold tryCatch. destruct (tryBody c (langOf c) w) as [[r|m|v] w1].
    + by left; eexists _, _.
    + left. destruct (onError_run m w1) as (w2 & -> & _). by eexists _, _.
    + right. by exists v, w1.
  - intros c w m w1 Hb Hf. unfold getTabCompletion. fold (langOf c).
    rewrite Hf. unfold tryCatch. rewrite Hb.
    destruct (tryBody_frame c w) as (He & _). rewrite Hb in He. cbn in He.
    destruct (onError_run m w1)
      as (w2 & -> & _ & _ & _ & evs2 & Hl2 & _ & _ & Hs2).
    exists w2. split; [done|].
    unfold eventsSince. by rewrite Hl2, drop_app_length, Hs2, He.
  - intros cs ch pd. apply runCalls_shownOnce. split; [apply NoDup_nil_2|].
    intros m Hm. cbn in Hm. by apply elem_of_nil in Hm.
Qed.

End Boundary.

(** The model handle rejecting with [null]: the call rejects. *)
Lemma nullish_throw_escapes_catch_witness :
  getTabCompletion MoreSamples.callNullRejection Sample.world0 =
    (Throw "Cannot read properties of null (reading 'message')",
     mkWorld (mkCache 4 []) ∅ None [EvModelGet; EvConsoleWarn "null"])
  /\ shownMessages
       (eventsSince (length (log Sample.world0))
          (snd (getTabCompletion MoreSamples.callNullRejection
                  Sample.world0))) = []
  /\ errorsShown
       (snd (getTabCompletion MoreSamples.callNullRejection Sample.world0))
     = errorsShown Sample.world0.
Proof.
  apply (nullish_throw_escapes_catch MoreSamples.callNullRejection
           Sample.world0 JsNull
           (mkWorld (mkCache 4 []) ∅ None [EvModelGet])).
  - reflexivity.
  - reflexivity.
Defined.

Lemma thrown_errors_caught_and_shown_once_witness :
  exists w2,
    getTabCompletion Sample.callRefused Sample.world0 = (Ok None, w2)
    /\ shownMessages
         (eventsSince
            (length (log (snd (tryBody Sample.callRefused Sample.typescript
                                 Sample.world0)))) w2)
       = ["connect ECONNREFUSED"].
Proof.
  destruct (thrown_errors_caught_and_shown_once (H := Sample.host))
    as (_ & Hc & _).
  apply (Hc Sample.callRefused Sample.world0 "connect ECONNREFUSED"
           (snd (tryBody Sample.callRefused Sample.typescript Sample.world0))).
  - reflexivity.
  - reflexivity.
Defined.

(** No model configured: [undefined], and nothing is shown. *)
Example no_model_sample :
  fst (getTabCompletion Sample.callNoModel Sample.world0) = Ok None
  /\ log (snd (getTabCompletion Sample.callNoModel Sample.world0))
     = [EvModelGet].
Proof. split; reflexivity. Qed.

(** The same failure twice in a row is shown once. *)
Example shown_once_sample :
  shownMessages
    (log (runCalls [Sample.callRefused; Sample.callRefused] Sample.world0))
  = ["connect ECONNREFUSED"].
Proof. reflexivity. Qed.

(* ====================================================================== *)
(** * Further properties of getTabCompletion                               *)
(* ====================================================================== *)

Section TraceFacts.
Context `{Collaborators}.

Lemma onError_log (m : string) (w : World) :
  fst (onError (CaughtError m) w) = Ok None
  /\ log (snd (onError (CaughtError m) w))
     = log w ++ errorEvents m (errorsShown w).
Proof.
  unfold onError, readMessage, errorEvents.
  crunch; rewrite <- ?app_assoc; done.
Qed.

Lemma buildContext_log (c : Call) (w : World) :
  log (snd (buildContext c (langOf c) w)) = log w ++ contextEvents c w.
Proof.
  unfold contextEvents, eventsSince.
  destruct (buildContext c (langOf c) w) as [r w1] eqn:Hb.
  apply buildContext_frame in Hb. destruct Hb as (_ & _ & _ & evs & Hl & _).
  cbn. by rewrite Hl, drop_app_length.
Qed.

(** The host calls of a call, in order: those of the context, then the
    cache lookup, then on a miss the status bar, the model call unless a
    stream is shared, and the end of the loop; the [catch] block where
    something threw. *)
Lemma call_log (c : Call) (w : World) :
  log (snd (getTabCompletion c w)) = log w ++ expectedEvents c w.
Proof.
  unfold getTabCompletion, expectedEvents. fold (langOf c).
  destruct (eolFilter _ _ _); [by rewrite app_nil_r|].
  unfold tryCatch, tryBody. unfold_monad.
  pose proof (buildContext_log c w) as Hl.
  destruct (buildContext c (langOf c) w) as [[[p|]|m|v] w1] eqn:Hb;
    apply buildContext_frame in Hb;
    destruct Hb as (_ & He & _ & _); cbn in Hl.
  - destruct (cache_get_frame (prompt p) w1) as (He1 & _ & Hl1 & _).
    destruct (isMiss (cache w1) (prompt p)) eqn:Hm.
    + rewrite complete_miss by done.
      pose proof (missBranch_fst c p (snd (cache_get (prompt p) w1))) as Hf.
      pose proof (missBranch_snd c p (snd (cache_get (prompt p) w1))) as Hs.
      pose proof (generate_log c p (snd (cache_get (prompt p) w1))) as Hg.
      destruct (generate_state c p (snd (cache_get (prompt p) w1)))
        as [_ Hge].
      rewrite theLoop_cache_get, reuses_cache_get in *.
      rewrite Hl1, Hl in Hg. unfold missEvents.
      destruct (missBranch c (langOf c) p _) as [[r|m|v] w2]; cbn in Hf, Hs;
        subst w2.
      * cbn. rewrite Hg, <- !app_assoc. cbn.
        by destruct (theLoop c p w1).
      * destruct (onError_log m (snd (generate c (langOf c) p
                     (snd (cache_get (prompt p) w1))))) as [_ Ho].
        destruct (onError (CaughtError m) _) as [r w3]. cbn in *.
        rewrite Ho, Hg, Hge, He1, He, <- !app_assoc. cbn.
        destruct (theLoop c p w1); simplify_eq. by rewrite app_nil_r.
      * rewrite onError_nullish. cbn. rewrite Hg, <- !app_assoc. cbn.
        by destruct (theLoop c p w1); simplify_eq.
    + unfold isMiss in Hm.
      destruct (peek (cache w1) (prompt p)) as [s|] eqn:E; [|done].
      rewrite (complete_hit _ _ _ _ s); [|done|by destruct (Js.truthy s)].
      cbn. by rewrite Hl1, Hl, <- app_assoc.
  - cbn. by rewrite Hl, app_nil_r.
  - destruct (onError_log m w1) as [_ Ho].
    destruct (onError (CaughtError m) w1) as [r w3]. cbn in *.
    by rewrite Ho, Hl, He, <- app_assoc.
  - rewrite onError_nullish. cbn. by rewrite Hl, <- app_assoc.
Qed.

Lemma callEvents_expected (c : Call) (w : World) :
  callEvents c w = expectedEvents c w.
Proof.
  unfold callEvents, eventsSince. by rewrite call_log, drop_app_length.
Qed.

End TraceFacts.

Section CallFacts.
Context `{Collaborators}.

(** Building the context starts by resolving the model handle, and calls
    neither the cache, nor the model, nor the status bar, nor the error
    dialog; it switches the legacy endpoint on for an OpenAI model. *)
Lemma contextEvents_shape (c : Call) (w : World) :
  exists tail,
    contextEvents c w = EvModelGet :: tail
    /\ cacheReads tail = [] /\ streamCompleteCalls tail = []
    /\ shownMessages tail = [] /\ statusBarCalls tail = []
    /\ openExternalCalls tail = []
    /\ legacyEndpointSwitches tail =
       match tabAutocompleteModel_get c with
       | Ok (Some l) => if instanceofOpenAI l then [tt] else []
       | _ => []
       end.
Proof.
  unfold contextEvents, eventsSince, buildContext. unfold_monad. cbn.
  repeat (case_match; simplify_eq; cbn in * ).
  all: rewrite <- ?app_assoc, drop_app_length; cbn.
  all: eexists; split; [reflexivity|]; done.
Qed.

Lemma eolFilter_false (lang : Language) (lineText : string) (p : Position) :
  (forall e, In e (endOfLine lang) -> Js.endsWith lineText e = true ->
             (character p < Z.of_nat (String.length lineText))%Z) ->
  eolFilter lang lineText p = false.
Proof.
  intros Hall. unfold eolFilter.
  destruct (existsb _ _) eqn:E; [|done].
  apply existsb_exists in E. destruct E as (e & Hin & He).
  apply andb_prop in He. destruct He as [He Hle].
  specialize (Hall e Hin He). apply Z.leb_le in Hle. lia.
Qed.

(** X1. When the model handle resolves to nothing, the call returns
    [undefined] having only asked for the handle: nothing is shown, the
    clipboard, the language server, the cache and the model are not
    called, and the shared state is otherwise as it was. *)
Theorem missing_model_returns_absent (c : Call) (w : World) :
  eolFilter (langOf c) (lineAt (document c) (line (pos c))) (pos c) = false ->
  tabAutocompleteModel_get c = Ok None ->
  getTabCompletion c w
  = (Ok None,
     mkWorld (cache w) (errorsShown w) (pending w) (log w ++ [EvModelGet])).
Proof.
  intros Hf Hm. unfold getTabCompletion. fold (langOf c). rewrite Hf.
  unfold tryCatch, tryBody, buildContext. unfold_monad. cbn. by rewrite Hm.
Qed.

(** X2. When no end-of-line marker ends the cursor's line with the cursor
    at or past the end of the line, the call goes on: its first host call
    is the resolution of the model handle. *)
Theorem filter_passed_resolves_model (c : Call) (w : World) :
  (forall e, In e (endOfLine (langOf c)) ->
     Js.endsWith (lineAt (document c) (line (pos c))) e = true ->
     (character (pos c)
      < Z.of_nat (String.length (lineAt (document c) (line (pos c)))))%Z) ->
  exists tail, callEvents c w = EvModelGet :: tail.
Proof.
  intros Hall. apply eolFilter_false in Hall.
  rewrite callEvents_expected. unfold expectedEvents. rewrite Hall.
  destruct (contextEvents_shape c w) as (tail & -> & _).
  by eexists.
Qed.

(** The cache reads and model calls of a call, read off its path. *)
Lemma callEvents_reads (c : Call) (w : World) :
  cacheReads (callEvents c w) =
    (if eolFilter (langOf c) (lineAt (document c) (line (pos c))) (pos c)
     then []
     else match buildContext c (langOf c) w with
          | (Ok (Some p), _) => [prompt p]
          | _ => []
          end)
  /\ streamCompleteCalls (callEvents c w) =
     (if eolFilter (langOf c) (lineAt (document c) (line (pos c))) (pos c)
      then []
      else match buildContext c (langOf c) w with
           | (Ok (Some p), w1) =>
               if isMiss (cache w1) (prompt p) && negb (reuses w1 (prefix p))
               then [(prompt p,
                      streamOptions (completionOptions p)
                        (stopSequences (completionOptions p) (langOf c)
                           (options c) (completeMultiline p)))]
               else []
           | _ => []
           end).
Proof.
  rewrite callEvents_expected. unfold expectedEvents.
  destruct (eolFilter _ _ _); [done|].
  destruct (contextEvents_shape c w) as (tail & -> & Hc & Hs & _).
  unfold cacheReads, streamCompleteCalls in *.
  destruct (buildContext c (langOf c) w) as [[[p|]|m|v] w1].
  - cbn. rewrite !omap_app, Hc, Hs. cbn. unfold missEvents.
    destruct (isMiss (cache w1) (prompt p)); cbn; [|done].
    rewrite !omap_app. cbn.
    destruct (reuses w1 (prefix p)); cbn;
      destruct (theLoop c p w1) as [[? [] ? ?]|m|v]; cbn; try done;
      unfold errorEvents; by repeat (case_match; cbn).
  - cbn. by rewrite !omap_app, Hc, Hs.
  - cbn. rewrite !omap_app, Hc, Hs. cbn.
    unfold errorEvents; by repeat (case_match; cbn).
  - cbn. by rewrite !omap_app, Hc, Hs.
Qed.

(** X3. A call reads the cache at most once, and a call that returns an
    outcome has read it exactly once, under the prompt its outcome
    reports. *)
Theorem cache_read_once_under_reported_prompt (c : Call) (w : World) :
  length (cacheReads (callEvents c w)) <= 1
  /\ forall o w',
       getTabCompletion c w = (Ok (Some o), w') ->
       cacheReads (callEvents c w) = [AutocompleteOutcome.prompt o].
Proof.
  destruct (callEvents_reads c w) as [Hr _]. rewrite Hr. split.
  - destruct (eolFilter _ _ _); [cbn; lia|].
    destruct (buildContext c (langOf c) w) as [[[p|]|m|v] w1]; cbn; lia.
  - intros o w' Hs. apply getTabCompletion_served in Hs.
    destruct Hs as (p & w1 & [Hf Hb] & Hc).
    rewrite Hf, Hb. f_equal.
    destruct (isMiss (cache w1) (prompt p)) eqn:Hm.
    + rewrite complete_miss in Hc by done.
      pose proof (missBranch_fst c p (snd (cache_get (prompt p) w1))) as Hfst.
      rewrite Hc in Hfst. cbn in Hfst.
      destruct (theLoop c p _) as [d| |]; [|done..].
      destruct (verdict d); by simplify_eq.
    + unfold isMiss in Hm.
      destruct (peek (cache w1) (prompt p)) as [s|] eqn:E; [|done].
      rewrite (complete_hit _ _ _ _ s) in Hc;
        [|done|by destruct (Js.truthy s)].
      by simplify_eq.
Qed.

(** X4. The model is asked at most once in a call, and only about the
    prompt the cache was just read under and holds no non-empty text
    for. *)
Theorem model_asked_only_on_miss (c : Call) (w : World) (pr : string)
    (o : CompletionOptions) :
  In (pr, o) (streamCompleteCalls (callEvents c w)) ->
  streamCompleteCalls (callEvents c w) = [(pr, o)]
  /\ cacheReads (callEvents c w) = [pr]
  /\ isMiss (cache w) pr = true.
Proof.
  destruct (callEvents_reads c w) as [Hcr Hsc]. rewrite Hcr, Hsc.
  destruct (eolFilter _ _ _); [done|].
  destruct (buildContext c (langOf c) w) as [[[p|]|m|v] w1] eqn:Hb;
    try done.
  apply buildContext_frame in Hb. destruct Hb as (Hca & _).
  destruct (isMiss (cache w1) (prompt p)) eqn:Hm; [|done].
  destruct (reuses w1 (prefix p)); [done|]. cbn.
  intros [Heq|[]]. simplify_eq. by rewrite <- Hca.
Qed.

End CallFacts.

(* ---------------------------------------------------------------------- *)
(** ** Text of a served completion                                         *)
(* ---------------------------------------------------------------------- *)

Lemma trimEnd_split (s : string) :
  exists t, s = Js.trimEnd s +:+ t /\ allWhiteSpace t = true.
Proof.
  induction s as [|ch r (t & IH & Ht)]; [by exists ""|].
  cbn [Js.trimEnd].
  destruct (Js.isWhiteSpace ch) eqn:Hw; cbn [andb].
  - destruct (Js.truthy (Js.trimEnd r)) eqn:Hr; cbn [negb].
    + exists t. split; [|done]. rewrite append_cons. by f_equal.
    + exists (String ch r). split; [done|]. cbn [allWhiteSpace].
      rewrite Hw. apply truthy_false in Hr. rewrite Hr, append_nil in IH.
      by subst t.
  - exists t. split; [|done]. rewrite append_cons. by f_equal.
Qed.

Lemma trimEnd_last (s : string) (ch : ascii) :
  lastCodeUnit (Js.trimEnd s) = Some ch -> Js.isWhiteSpace ch = false.
Proof.
  induction s as [|c0 r IH]; [done|]. cbn [Js.trimEnd].
  destruct (Js.isWhiteSpace c0 && negb (Js.truthy (Js.trimEnd r))) eqn:E;
    [done|].
  cbn [lastCodeUnit].
  destruct (Js.trimEnd r) as [|c1 r1] eqn:Hr.
  - intros ?; simplify_eq. cbn in E. by rewrite andb_true_r in E.
  - exact IH.
Qed.

Section ServedText.
Context `{Collaborators}.

(** X5. The completion of an outcome that is not a cache hit is the
    accumulated text with the white space at its end removed and nothing
    else: it is not empty, its last code unit is not white space, and
    white space at its start is kept. *)
Theorem served_text_shape (c : Call) (w : World) (o : AutocompleteOutcome.t)
    (w' : World) :
  getTabCompletion c w = (Ok (Some o), w') ->
  AutocompleteOutcome.cacheHit o = false ->
  AutocompleteOutcome.completion o <> ""
  /\ (forall ch, lastCodeUnit (AutocompleteOutcome.completion o) = Some ch ->
                 Js.isWhiteSpace ch = false)
  /\ exists p w1 d t,
       prepares c w p w1 /\ theLoop c p w1 = Ok d
       /\ text d = AutocompleteOutcome.completion o +:+ t
       /\ allWhiteSpace t = true.
Proof.
  intros Hs Hh.
  pose proof (served_miss_truthy c w o w' Hs Hh) as Ht.
  apply getTabCompletion_served in Hs. destruct Hs as (p & w1 & Hp & Hc).
  assert (exists d, theLoop c p w1 = Ok d
            /\ AutocompleteOutcome.completion o = Js.trimEnd (text d))
    as (d & Hl & Hd).
  { destruct (isMiss (cache w1) (prompt p)) eqn:Hm.
    - rewrite complete_miss in Hc by done.
      pose proof (missBranch_fst c p (snd (cache_get (prompt p) w1))) as Hf.
      rewrite Hc, theLoop_cache_get in Hf. cbn in Hf.
      destruct (theLoop c p w1) as [d| |]; [|done..].
      exists d. split; [done|].
      unfold verdict in Hf. destruct (cancelled d); [done|].
      destruct (Js.truthy (Js.trim (text d))); [|done].
      cbn in Hf. by simplify_eq.
    - unfold isMiss in Hm.
      destruct (peek (cache w1) (prompt p)) as [s|] eqn:E; [|done].
      rewrite (complete_hit _ _ _ _ s) in Hc;
        [|done|by destruct (Js.truthy s)].
      by simplify_eq. }
  repeat split.
  - by apply truthy_true.
  - intros ch. rewrite Hd. apply trimEnd_last.
  - destruct (trimEnd_split (text d)) as (t & Ht1 & Ht2).
    exists p, w1, d, t. rewrite Hd. by split; [|split; [|split]].
Qed.

End ServedText.

Lemma served_text_shape_witness :
  AutocompleteOutcome.completion Sample.served <> ""
  /\ (forall ch,
        lastCodeUnit (AutocompleteOutcome.completion Sample.served) = Some ch ->
        Js.isWhiteSpace ch = false)
  /\ exists p w1 d t,
       prepares Sample.call Sample.world0 p w1
       /\ theLoop Sample.call p w1 = Ok d
       /\ text d = AutocompleteOutcome.completion Sample.served +:+ t
       /\ allWhiteSpace t = true.
Proof.
  apply (served_text_shape Sample.call Sample.world0 Sample.served
           Sample.afterServed); reflexivity.
Defined.

(* ---------------------------------------------------------------------- *)
(** ** Failures and what is shown                                          *)
(* ---------------------------------------------------------------------- *)

Section Shown.
Context `{Collaborators}.

Lemma errorEvents_projections (m : string) (shown : gset string) :
  cacheReads (errorEvents m shown) = []
  /\ streamCompleteCalls (errorEvents m shown) = []
  /\ statusBarCalls (errorEvents m shown) = []
  /\ legacyEndpointSwitches (errorEvents m shown) = []
  /\ shownMessages (errorEvents m shown)
     = (if bool_decide (m ∈ shown) then [] else [m])
  /\ openExternalCalls (errorEvents m shown) = [].
Proof.
  unfold errorEvents.
  by repeat (case_match; cbn).
Qed.

(** What is shown in a call, read off its path: the message of the error
    whose throw ended it, if it was not shown before. The call itself
    never opens the documentation. *)
Lemma callEvents_shown (c : Call) (w : World) :
  shownMessages (callEvents c w) =
    (if eolFilter (langOf c) (lineAt (document c) (line (pos c))) (pos c)
     then []
     else match buildContext c (langOf c) w with
          | (Throw m, _) => if bool_decide (m ∈ errorsShown w) then [] else [m]
          | (ThrowNullish _, _) => []
          | (Ok None, _) => []
          | (Ok (Some p), w1) =>
              if isMiss (cache w1) (prompt p) then
                match theLoop c p w1 with
                | Throw m => if bool_decide (m ∈ errorsShown w) then [] else [m]
                | Ok _ | ThrowNullish _ => []
                end
              else []
          end)
  /\ openExternalCalls (callEvents c w) = [].
Proof.
  rewrite callEvents_expected. unfold expectedEvents.
  destruct (eolFilter _ _ _); [done|].
  destruct (contextEvents_shape c w) as (tail & -> & _ & _ & Hs & _ & Ho & _).
  unfold shownMessages, openExternalCalls in *.
  destruct (buildContext c (langOf c) w) as [[[p|]|m|v] w1] eqn:Hb.
  - apply buildContext_frame in Hb. destruct Hb as (_ & He & _).
    cbn -[errorEvents]. rewrite !omap_app, Hs, Ho. cbn -[errorEvents].
    unfold missEvents.
    destruct (isMiss (cache w1) (prompt p)); cbn -[errorEvents]; [|done].
    rewrite !omap_app. cbn -[errorEvents].
    destruct (reuses w1 (prefix p)); cbn -[errorEvents];
      destruct (theLoop c p w1) as [[? [] ? ?]|m|v]; cbn -[errorEvents];
      try done;
      destruct (errorEvents_projections m (errorsShown w1))
        as (_ & _ & _ & _ & Hsm & Hoe);
      unfold shownMessages, openExternalCalls in Hsm, Hoe;
      rewrite Hsm, Hoe, He; by destruct (bool_decide (m ∈ errorsShown w)).
  - cbn. by rewrite !omap_app, Hs, Ho.
  - cbn -[errorEvents]. rewrite !omap_app, Hs, Ho. cbn -[errorEvents].
    destruct (errorEvents_projections m (errorsShown w))
      as (_ & _ & _ & _ & Hsm & Hoe).
    unfold shownMessages, openExternalCalls in *.
    rewrite Hsm, Hoe. by destruct (bool_decide (m ∈ errorsShown w)).
  - cbn. by rewrite !omap_app, Hs, Ho.
Qed.

(** The callbacks of the dialogs: one opening of the documentation per
    dialog answered with the "Documentation" item, and nothing else. *)
Lemma answerDialogs_log (c : Call) (shown : list string) : forall w,
  log (snd (answerDialogs c shown w)) =
  log w ++ flat_map (fun _ => if choseDocumentation c
                              then [EvOpenExternal documentationUrl]
                              else []) shown.
Proof.
  induction shown as [|m shown IH]; intros w; cbn [answerDialogs flat_map].
  - cbn. by rewrite app_nil_r.
  - unfold choseDocumentation, thenCallback in *. unfold_monad.
    destruct (errorDialogChoice c) as [v|]; [|apply IH].
    destruct (String.eqb v "Documentation"); [|apply IH].
    rewrite IH. cbn. by rewrite <- app_assoc.
Qed.

(** The result of a call that does not get to [// Completion]. *)
Lemma context_failure_result (c : Call) (w : World) (m : string)
    (w1 : World) :
  eolFilter (langOf c) (lineAt (document c) (line (pos c))) (pos c) = false ->
  buildContext c (langOf c) w = (Throw m, w1) ->
  fst (getTabCompletion c w) = Ok None.
Proof.
  intros Hf Hb. unfold getTabCompletion. fold (langOf c). rewrite Hf.
  unfold tryCatch, tryBody. unfold_monad. rewrite Hb.
  by destruct (onError_log m w1) as [-> _].
Qed.

(** X6. A symbol lookup that rejects before the 100 ms timer fires is not
    swallowed: the call returns [undefined] without reading the cache or
    asking the model, and the rejection message is shown unless it was
    shown before. *)
Theorem lookup_rejection_in_time_aborts (c : Call) (w : World) (l : LLM)
    (clip m : string) (t : nat) :
  eolFilter (langOf c) (lineAt (document c) (line (pos c))) (pos c) = false ->
  tabAutocompleteModel_get c = Ok (Some l) ->
  clipboard_readText c = Ok clip ->
  getDefinitionsFromLsp c = SettlesAt t (Throw m) ->
  t < 100 ->
  fst (getTabCompletion c w) = Ok None
  /\ shownMessages (callEvents c w)
     = (if bool_decide (m ∈ errorsShown w) then [] else [m])
  /\ cacheReads (callEvents c w) = []
  /\ streamCompleteCalls (callEvents c w) = [].
Proof.
  intros Hf Hm Hc Hl Ht.
  assert (exists w1, buildContext c (langOf c) w = (Throw m, w1)) as [w1 Hb].
  { unfold buildContext. unfold_monad. cbn. rewrite Hm, Hc, Hl.
    unfold raceTimeout, lspTimeoutMs.
    destruct (Nat.ltb_spec t 100); [|lia]. cbn.
    destruct (instanceofOpenAI l); cbn; by eexists. }
  destruct (callEvents_shown c w) as [Hs _].
  destruct (callEvents_reads c w) as [Hcr Hsc].
  rewrite Hs, Hcr, Hsc, Hf, Hb. repeat split.
  by eapply context_failure_result.
Qed.

(** X7. A call does not open the documentation before it returns. The
    page is opened afterwards, by the callback of the error dialog: once,
    on the walkthrough page, when a message was shown in the call and the
    user picks the "Documentation" item, and not otherwise; the callback
    calls the host for nothing else. *)
Theorem documentation_opened_on_choice (c : Call) (w : World) :
  openExternalCalls (callEvents c w) = []
  /\ dialogEvents c w =
     match shownMessages (callEvents c w) with
     | [] => []
     | _ :: _ =>
         if choseDocumentation c then [EvOpenExternal documentationUrl]
         else []
     end.
Proof.
  destruct (callEvents_shown c w) as [Hs Ho]. split; [done|].
  unfold dialogEvents, afterDialogs, eventsSince.
  rewrite answerDialogs_log, drop_app_length, Hs.
  destruct (eolFilter _ _ _); [done|].
  destruct (buildContext c (langOf c) w) as [[[p|]|m|v] w1]; try done.
  - destruct (isMiss (cache w1) (prompt p)); [|done].
    destruct (theLoop c p w1) as [d|m|v]; try done.
    destruct (bool_decide (m ∈ errorsShown w)); [done|].
    cbn. by rewrite app_nil_r.
  - destruct (bool_decide (m ∈ errorsShown w)); [done|].
    cbn. by rewrite app_nil_r.
Qed.

End Shown.

Lemma lookup_rejection_in_time_aborts_witness :
  fst (getTabCompletion MoreSamples.callLookupRejects Sample.world0) = Ok None
  /\ shownMessages (callEvents MoreSamples.callLookupRejects Sample.world0)
     = ["language server crashed"]
  /\ cacheReads (callEvents MoreSamples.callLookupRejects Sample.world0) = []
  /\ streamCompleteCalls
       (callEvents MoreSamples.callLookupRejects Sample.world0) = [].
Proof.
  apply (lookup_rejection_in_time_aborts MoreSamples.callLookupRejects
           Sample.world0 (Sample.modelOf Sample.answer) ""
           "language server crashed" 30); try reflexivity.
  lia.
Defined.

Example documentation_opened_sample :
  openExternalCalls (callEvents MoreSamples.callRefusedDocs Sample.world0)
  = []
  /\ dialogEvents MoreSamples.callRefusedDocs Sample.world0
     = [EvOpenExternal documentationUrl]
  /\ dialogEvents Sample.callRefused Sample.world0 = [].
Proof. repeat split; reflexivity. Qed.

(* ---------------------------------------------------------------------- *)
(** ** The context in hand                                                 *)
(* ---------------------------------------------------------------------- *)

Section InHand.
Context `{Collaborators}.

(** What [prepares] says of the pieces in hand. *)
Lemma prepares_fields (c : Call) (w : World) (p : Prepared) (w1 : World) :
  prepares c w p w1 ->
  tabAutocompleteModel_get c = Ok (Some (llm p))
  /\ lineBelowCursor p
     = lineAt (document c)
         (Z.min (line (pos c) + 1) (lineCount (document c) - 1))
  /\ handlebars
       (match template (options c) with
        | Some t =>
            if Js.truthy t then t
            else Template.template (getTemplateForModel (model (llm p)))
        | None => Template.template (getTemplateForModel (model (llm p)))
        end) (prefix p) (suffix p) = Ok (prompt p).
Proof.
  intros [_ Hb]. unfold buildContext in Hb. unfold_monad. cbn in Hb.
  repeat (case_match; simplify_eq; cbn in * ); done.
Qed.

(** X8. An empty string given as template override is ignored: the prompt
    is rendered from the model's own template and the model's completion
    options are the ones in hand. *)
Theorem empty_template_override_ignored (c : Call) (w : World)
    (p : Prepared) (w1 : World) :
  prepares c w p w1 ->
  template (options c) = Some "" ->
  handlebars (Template.template (getTemplateForModel (model (llm p))))
    (prefix p) (suffix p) = Ok (prompt p)
  /\ completionOptions p
     = Template.completionOptions (getTemplateForModel (model (llm p))).
Proof.
  intros Hp Ht.
  destruct (prepares_fields c w p w1 Hp) as (_ & _ & Hh).
  pose proof (prepares_completionOptions c w p w1 Hp) as Hc.
  by rewrite Ht in Hh, Hc.
Qed.

(** X9. With a non-empty template override the prompt is rendered from
    the override, and on a miss that starts a stream the model is given
    nothing of the model template's completion options: no provider stop
    sequence and no other property, only [temperature], [raw] and the
    stop list of the two separators and the language's stop words (after
    the single newline, when it applies). *)
Theorem template_override_drops_model_options (c : Call) (w : World)
    (p : Prepared) (w1 : World) (t : string) :
  prepares c w p w1 ->
  template (options c) = Some t ->
  t <> "" ->
  isMiss (cache w1) (prompt p) = true ->
  reuses w1 (prefix p) = false ->
  handlebars t (prefix p) (suffix p) = Ok (prompt p)
  /\ streamCompleteCalls (callEvents c w)
     = [(prompt p,
         {| temperature := Some 0%Q;
            raw := Some true;
            stop :=
              Some ((match multilineCompletions (options c) with
                     | always => []
                     | never => [Js.LF]
                     | auto => if completeMultiline p then [] else [Js.LF]
                     end)
                    ++ [Js.LF +:+ Js.LF; "```"] ++ stopWords (langOf c));
            others := [] |})].
Proof.
  intros Hp Ht Hne Hm Hr.
  destruct (prepares_fields c w p w1 Hp) as (_ & _ & Hh).
  pose proof (prepares_completionOptions c w p w1 Hp) as Hc.
  apply truthy_true in Hne. rewrite Ht, Hne in Hh, Hc. split; [done|].
  destruct (callEvents_reads c w) as [_ Hs]. destruct Hp as [Hf Hb].
  rewrite Hs, Hf, Hb, Hm, Hr, Hc. cbn.
  unfold streamOptions, stopSequences. cbn.
  by destruct (multilineCompletions (options c)), (completeMultiline p).
Qed.

(** X10. With the cursor in the last line of the document, the line
    handed to the similar-line stopper as the line below the cursor is
    the cursor's own line. *)
Theorem last_line_is_its_own_line_below (c : Call) (w : World)
    (p : Prepared) (w1 : World) :
  prepares c w p w1 ->
  line (pos c) = (lineCount (document c) - 1)%Z ->
  lineBelowCursor p = lineAt (document c) (line (pos c)).
Proof.
  intros Hp Hl. destruct (prepares_fields c w p w1 Hp) as (_ & -> & _).
  f_equal. lia.
Qed.

(** X11. The legacy completions endpoint is switched on in every call
    that resolves an OpenAI model, once, cache hit or miss, and in no
    other call. *)
Theorem legacy_endpoint_for_openai (c : Call) (w : World) :
  legacyEndpointSwitches (callEvents c w) =
  if eolFilter (langOf c) (lineAt (document c) (line (pos c))) (pos c)
  then []
  else match tabAutocompleteModel_get c with
       | Ok (Some l) => if instanceofOpenAI l then [tt] else []
       | _ => []
       end.
Proof.
  rewrite callEvents_expected. unfold expectedEvents.
  destruct (eolFilter _ _ _); [done|].
  destruct (contextEvents_shape c w) as (tail & -> & _ & _ & _ & _ & _ & Hl).
  unfold legacyEndpointSwitches in *.
  rewrite omap_app. cbn -[errorEvents]. rewrite Hl.
  match goal with |- ?a ++ ?b = _ => assert (b = []) as ->;
    [|by rewrite app_nil_r] end.
  destruct (buildContext c (langOf c) w) as [[[p|]|m|v] w1]; [|done| |done].
  - unfold missEvents.
    destruct (isMiss (cache w1) (prompt p)); [|done].
    cbn -[errorEvents]. rewrite ?omap_app.
    destruct (reuses w1 (prefix p)); cbn -[errorEvents];
      destruct (theLoop c p w1) as [[? [] ? ?]|m|v]; cbn -[errorEvents];
      try done;
      destruct (errorEvents_projections m (errorsShown w1))
        as (_ & _ & _ & Hx & _);
      unfold legacyEndpointSwitches in Hx; by rewrite ?omap_app, Hx.
  - destruct (errorEvents_projections m (errorsShown w))
      as (_ & _ & _ & Hx & _).
    by unfold legacyEndpointSwitches in Hx.
Qed.

(** X12. The loading indicator is started exactly on a cache miss, once,
    and within the call it is stopped only when cancellation was read: a
    call that serves, that ends on an empty text or that fails leaves it
    running. *)
Theorem status_bar_discipline (c : Call) (w : World) (p : Prepared)
    (w1 : World) :
  prepares c w p w1 ->
  statusBarCalls (callEvents c w) =
  if isMiss (cache w1) (prompt p) then
    EvSetupStatusBar true true ::
    match theLoop c p w1 with
    | Ok d => if cancelled d then [EvStopStatusBarLoading] else []
    | Throw _ | ThrowNullish _ => []
    end
  else [].
Proof.
  intros [Hf Hb]. rewrite callEvents_expected. unfold expectedEvents.
  rewrite Hf, Hb.
  destruct (contextEvents_shape c w) as (tail & -> & _ & _ & _ & Hs & _).
  unfold statusBarCalls in *. rewrite omap_app. cbn -[errorEvents].
  rewrite Hs. unfold missEvents.
  destruct (isMiss (cache w1) (prompt p)); [|done].
  cbn -[errorEvents]. rewrite ?omap_app.
  destruct (reuses w1 (prefix p)); cbn -[errorEvents];
    destruct (theLoop c p w1) as [[? [] ? ?]|m|v]; cbn -[errorEvents];
    try done;
    destruct (errorEvents_projections m (errorsShown w1))
      as (_ & _ & Hx & _);
    unfold statusBarCalls in Hx; by rewrite ?omap_app, Hx.
Qed.

End InHand.

(* ---------------------------------------------------------------------- *)
(** ** A failing stream                                                    *)
(* ---------------------------------------------------------------------- *)

(** The pipeline returning within the updates, no cancellation read: the
    loop ends normally, whatever the generator would have done next. *)
Lemma drain_stop (P : Transform) tok fail : forall ds k s acc o,
  feed P s ds = (o, None) ->
  (forall j, j < length ds -> tok (k + j) = false) ->
  exists n rest,
    drain P tok k s acc ds fail
    = Ok (mkDrained (acc +:+ Js.concat o) false n rest).
Proof.
  induction ds as [|u ds IH]; intros k s acc o Hf Hb; [done|].
  cbn [feed] in Hf. cbn [drain].
  assert (tok k = false) as ->
    by (rewrite <- (Nat.add_0_r k); apply Hb; cbn; lia).
  destruct (tstep P s u) as [o1 [s1|]].
  - destruct (feed P s1 ds) as [o2 r] eqn:E. simplify_eq.
    destruct (IH (S k) s1 (acc +:+ Js.concat o1) o2 E) as (n & rest & ->).
    + intros j Hj. replace (S k + j) with (k + S j) by lia.
      apply Hb. cbn. lia.
    + exists n, rest. by rewrite concat_app, append_assoc.
  - simplify_eq. by eexists _, _.
Qed.

(** The pipeline pulling to the end, no cancellation read: the loop ends
    with the throw of the generator if it throws, and normally
    otherwise. *)
Lemma drain_through (P : Transform) tok fail : forall ds k s acc o s',
  feed P s ds = (o, Some s') ->
  (forall j, j < length ds -> tok (k + j) = false) ->
  drain P tok k s acc ds fail =
  match fail with
  | Some m => Throw m
  | None =>
      Ok (mkDrained (acc +:+ Js.concat (o ++ tflush P s')) false
            (k + length ds) None)
  end.
Proof.
  induction ds as [|u ds IH]; intros k s acc o s' Hf Hb.
  - cbn in Hf. simplify_eq. cbn. by rewrite Nat.add_0_r.
  - cbn [feed] in Hf. cbn [drain].
    assert (tok k = false) as ->
      by (rewrite <- (Nat.add_0_r k); apply Hb; cbn; lia).
    destruct (tstep P s u) as [o1 [s1|]]; [|done].
    destruct (feed P s1 ds) as [o2 r] eqn:E. simplify_eq.
    rewrite (IH (S k) s1 (acc +:+ Js.concat o1) o2 s' E).
    + destruct fail; [done|].
      rewrite <- app_assoc, (concat_app o1), append_assoc. cbn [length].
      by replace (S k + length ds) with (k + S (length ds)) by lia.
    + intros j Hj. replace (S k + j) with (k + S j) by lia.
      apply Hb. cbn. lia.
Qed.

Section FailingStream.
Context `{Collaborators}.

(** X13. A generator that throws after all its updates, none of them
    cancelled and the pipeline pulling to the end: the text accumulated
    from the updates is dropped, the call returns [undefined], and the
    message is shown unless it was shown before. *)
Theorem stream_failure_discards_text (c : Call) (w : World) (p : Prepared)
    (w1 : World) (m : string) (o : list string)
    (s : tstate (finalGenerator (langOf c) (lineBelowCursor p))) :
  prepares c w p w1 ->
  isMiss (cache w1) (prompt p) = true ->
  failure (obtained c p w1) = Some m ->
  (forall j, j < length (deltas (obtained c p w1)) -> token c j = false) ->
  feed (finalGenerator (langOf c) (lineBelowCursor p)) (tinit _)
    (deltas (obtained c p w1)) = (o, Some s) ->
  fst (getTabCompletion c w) = Ok None
  /\ shownMessages (callEvents c w)
     = (if bool_decide (m ∈ errorsShown w) then [] else [m]).
Proof.
  intros Hp Hm Hfail Hb Hf.
  assert (theLoop c p w1 = Throw m) as Hl.
  { unfold theLoop. rewrite (drain_through _ _ _ _ 0 _ "" o s Hf Hb).
    by rewrite Hfail. }
  destruct (miss_run c w p w1 Hp Hm) as [Hr _].
  destruct (callEvents_shown c w) as [Hs _].
  destruct Hp as [Hfl Hbc].
  by rewrite Hr, Hs, Hfl, Hbc, Hm, Hl.
Qed.

(** X14. A generator that would throw is never seen to throw when the
    pipeline returns before its end (the similar-line stop, say): the
    call gives its verdict on the text accumulated up to there and
    nothing is shown. *)
Theorem failure_after_stop_unseen (c : Call) (w : World) (p : Prepared)
    (w1 : World) (o : list string) :
  prepares c w p w1 ->
  isMiss (cache w1) (prompt p) = true ->
  (forall j, j < length (deltas (obtained c p w1)) -> token c j = false) ->
  feed (finalGenerator (langOf c) (lineBelowCursor p)) (tinit _)
    (deltas (obtained c p w1)) = (o, None) ->
  fst (getTabCompletion c w)
  = Ok ((fun t => outcomeOf c p t false)
        <$> (if Js.truthy (Js.trim (Js.concat o))
             then Some (Js.trimEnd (Js.concat o)) else None))
  /\ shownMessages (callEvents c w) = [].
Proof.
  intros Hp Hm Hb Hf.
  destruct (drain_stop _ (token c) (failure (obtained c p w1)) _ 0 _ "" o
              Hf Hb) as (n & rest & Hd).
  assert (theLoop c p w1 = Ok (mkDrained (Js.concat o) false n rest)) as Hl.
  { unfold theLoop. by rewrite Hd, append_nil. }
  destruct (miss_run c w p w1 Hp Hm) as [Hr _].
  destruct (callEvents_shown c w) as [Hs _].
  destruct Hp as [Hfl Hbc].
  by rewrite Hr, Hs, Hfl, Hbc, Hm, Hl.
Qed.

(** X15. Nor is it seen to throw when cancellation is read at an update
    before its end: the call returns [undefined] and nothing is shown. *)
Theorem failure_after_cancel_unseen (c : Call) (w : World) (p : Prepared)
    (w1 : World) (i : nat) (o : list string)
    (s : tstate (finalGenerator (langOf c) (lineBelowCursor p))) :
  prepares c w p w1 ->
  isMiss (cache w1) (prompt p) = true ->
  i < length (deltas (obtained c p w1)) ->
  token c i = true ->
  (forall j, j < i -> token c j = false) ->
  feed (finalGenerator (langOf c) (lineBelowCursor p)) (tinit _)
    (take i (deltas (obtained c p w1))) = (o, Some s) ->
  fst (getTabCompletion c w) = Ok None
  /\ shownMessages (callEvents c w) = [].
Proof.
  intros Hp Hm Hlt Hc Hb Hf.
  assert (exists d, theLoop c p w1 = Ok d /\ cancelled d = true)
    as (d & Hl & Hcd).
  { unfold theLoop.
    rewrite (drain_cancel _ _ _ i _ 0 _ "" o s Hlt Hc Hb Hf). by eexists. }
  destruct (miss_run c w p w1 Hp Hm) as [Hr _].
  destruct (callEvents_shown c w) as [Hs _].
  destruct Hp as [Hfl Hbc].
  rewrite Hr, Hs, Hfl, Hbc, Hm, Hl. unfold verdict. by rewrite Hcd.
Qed.

End FailingStream.

(* ====================================================================== *)
(** * Properties of llmFromDescription                                     *)
(* ====================================================================== *)

Section FromDescription.
Context `{Llms.Classes}.

Lemma or_truthy (a b : Llms.JsValue) :
  Llms.truthy b = true -> Llms.truthy (Llms.or a b) = true.
Proof. unfold Llms.or. by destruct (Llms.truthy a) eqn:E. Qed.

Lemma find_first {A} (f : A -> bool) (pre post : list A) (x : A) :
  (forall y, In y pre -> f y = false) -> f x = true ->
  List.find f (pre ++ x :: post) = Some x.
Proof.
  intros Hpre Hx. induction pre as [|y pre IH]; cbn.
  - by rewrite Hx.
  - rewrite (Hpre y) by (by left). apply IH. intros z Hz. apply Hpre.
    by right.
Qed.

(** X16. The function returns [undefined] exactly when no class of the
    table carries the described provider name. *)
Theorem unknown_provider_undefined (desc : Llms.ModelDescription)
    (co : option (gmap string Llms.JsValue)) :
  Llms.llmFromDescription desc co = None
  <-> forall c, In c Llms.LLMs ->
        Llms.providerName c <> Llms.provider desc.
Proof.
  unfold Llms.llmFromDescription. split.
  - destruct (List.find _ _) eqn:E; [done|]. intros _ c Hin Heq.
    pose proof (List.find_none _ _ E c Hin) as Hf. cbn in Hf.
    rewrite Heq, String.eqb_refl in Hf. done.
  - intros Hall. destruct (List.find _ _) as [c|] eqn:E; [|done].
    apply List.find_some in E. destruct E as [Hin Hf].
    apply String.eqb_eq in Hf. by destruct (Hall c Hin).
Qed.

(** X17. Among classes carrying the same provider name, the one that
    comes first in the table is instantiated. *)
Theorem first_class_in_table_wins (desc : Llms.ModelDescription)
    (co : option (gmap string Llms.JsValue)) (pre post : list Llms.LlmClass)
    (c : Llms.LlmClass) :
  Llms.LLMs = pre ++ c :: post ->
  (forall c', In c' pre -> Llms.providerName c' <> Llms.provider desc) ->
  Llms.providerName c = Llms.provider desc ->
  Llms.cls <$> Llms.llmFromDescription desc co = Some c.
Proof.
  intros Hl Hpre Hc. unfold Llms.llmFromDescription. rewrite Hl.
  rewrite (find_first _ pre post c); [done| |].
  - intros y Hy. apply String.eqb_neq. by apply Hpre.
  - by apply String.eqb_eq.
Qed.

(** X18. An instance is always given a model name and a token limit that
    are set: whatever the description, the passed options and the class
    defaults hold, [completionOptions.model] and
    [completionOptions.maxTokens] of the constructor's argument are
    truthy, so never [undefined], [""] or [0]. *)
Theorem model_and_max_tokens_always_set (desc : Llms.ModelDescription)
    (co : option (gmap string Llms.JsValue)) (i : Llms.Instance) :
  Llms.llmFromDescription desc co = Some i ->
  Llms.truthy (Llms.get (Llms.o_completionOptions (Llms.options i)) "model")
  = true
  /\ Llms.truthy
       (Llms.get (Llms.o_completionOptions (Llms.options i)) "maxTokens")
     = true.
Proof.
  unfold Llms.llmFromDescription.
  destruct (List.find _ _) as [c|]; [|done]. intros ?; simplify_eq. cbn.
  unfold Llms.get. split.
  - rewrite lookup_insert_ne by done. rewrite lookup_insert_eq. cbn.
    by apply or_truthy.
  - rewrite lookup_insert_eq. cbn. by apply or_truthy.
Qed.

(** X19. A falsy [maxTokens] of the description's own completion options
    (0, say) hides the one of the passed options: the limit is then the
    class default if that is truthy and 1024 otherwise, whatever the
    passed options hold. *)
Theorem own_falsy_max_tokens_hides_passed (desc : Llms.ModelDescription)
    (co : option (gmap string Llms.JsValue)) (i : Llms.Instance)
    (own : gmap string Llms.JsValue) (v : Llms.JsValue) :
  Llms.llmFromDescription desc co = Some i ->
  Llms.completionOptions desc = Some own ->
  own !! "maxTokens" = Some v ->
  Llms.truthy v = false ->
  Llms.get (Llms.o_completionOptions (Llms.options i)) "maxTokens"
  = Llms.or (Llms.classMaxTokens (Llms.cls i)) (Llms.JNumber 1024%Q).
Proof.
  unfold Llms.llmFromDescription.
  destruct (List.find _ _) as [c|]; [|done].
  intros ? Hown Hv Hf; simplify_eq. cbn. unfold Llms.get at 1.
  rewrite lookup_insert_eq. cbn. f_equal.
  unfold Llms.get, Llms.spread2. rewrite Hown. cbn.
  rewrite (lookup_union_Some_l _ _ _ v Hv). cbn.
  unfold Llms.or at 1. by rewrite Hf.
Qed.

(** X20. For every property but [model] and [maxTokens], the completion
    options given to the constructor hold the description's own value
    when it has the property, and the passed one otherwise. *)
Theorem description_options_go_over_passed (desc : Llms.ModelDescription)
    (co : option (gmap string Llms.JsValue)) (i : Llms.Instance)
    (k : string) :
  Llms.llmFromDescription desc co = Some i ->
  k <> "model" -> k <> "maxTokens" ->
  Llms.o_completionOptions (Llms.options i) !! k
  = match default ∅ (Llms.completionOptions desc) !! k with
    | Some v => Some v
    | None => default ∅ co !! k
    end.
Proof.
  unfold Llms.llmFromDescription.
  destruct (List.find _ _) as [c|]; [|done].
  intros ? Hm Ht; simplify_eq. cbn.
  rewrite !lookup_insert_ne by done. unfold Llms.spread2.
  rewrite lookup_union.
  destruct (default ∅ (Llms.completionOptions desc) !! k) as [v|] eqn:E.
  - by destruct (default ∅ co !! k).
  - by destruct (default ∅ co !! k).
Qed.

End FromDescription.

(* ---------------------------------------------------------------------- *)
(** ** The further properties on sample calls                              *)
(* ---------------------------------------------------------------------- *)

Lemma missing_model_returns_absent_witness :
  getTabCompletion Sample.callNoModel Sample.world0
  = (Ok None,
     mkWorld (cache Sample.world0) (errorsShown Sample.world0)
       (pending Sample.world0) (log Sample.world0 ++ [EvModelGet])).
Proof.
  apply (missing_model_returns_absent Sample.callNoModel Sample.world0);
    reflexivity.
Defined.

Lemma filter_passed_resolves_model_witness :
  exists tail,
    callEvents MoreSamples.callLastLine Sample.world0 = EvModelGet :: tail.
Proof.
  apply (filter_passed_resolves_model MoreSamples.callLastLine Sample.world0).
  intros e [<-|[]] _. vm_compute. reflexivity.
Defined.

Lemma cache_read_once_under_reported_prompt_witness :
  length (cacheReads (callEvents Sample.call Sample.world0)) <= 1
  /\ cacheReads (callEvents Sample.call Sample.world0)
     = [AutocompleteOutcome.prompt Sample.served].
Proof.
  destruct (cache_read_once_under_reported_prompt Sample.call Sample.world0)
    as [Hle Hread].
  split; [exact Hle|].
  apply (Hread Sample.served Sample.afterServed). reflexivity.
Defined.

Lemma model_asked_only_on_miss_witness :
  streamCompleteCalls (callEvents Sample.call Sample.world0)
  = [(prompt Sample.prepared, Sample.passedOptions)]
  /\ cacheReads (callEvents Sample.call Sample.world0)
     = [prompt Sample.prepared]
  /\ isMiss (cache Sample.world0) (prompt Sample.prepared) = true.
Proof.
  apply (model_asked_only_on_miss Sample.call Sample.world0
           (prompt Sample.prepared) Sample.passedOptions).
  vm_compute. by left.
Defined.

Lemma empty_template_override_ignored_witness :
  @handlebars Sample.host
    (Template.template
       (@getTemplateForModel Sample.host (model (llm Sample.prepared))))
    (prefix Sample.prepared) (suffix Sample.prepared)
  = Ok (prompt Sample.prepared)
  /\ completionOptions Sample.prepared
     = Template.completionOptions
         (@getTemplateForModel Sample.host (model (llm Sample.prepared))).
Proof.
  apply (empty_template_override_ignored MoreSamples.callEmptyTemplate
           Sample.world0 Sample.prepared (Sample.afterContext Sample.world0)).
  - split; reflexivity.
  - reflexivity.
Defined.

Lemma template_override_drops_model_options_witness :
  @handlebars Sample.host "{{{prefix}}}<FILL>{{{suffix}}}"
    (prefix MoreSamples.preparedOverride) (suffix MoreSamples.preparedOverride)
  = Ok (prompt MoreSamples.preparedOverride)
  /\ streamCompleteCalls (callEvents MoreSamples.callOverride Sample.world0)
     = [(prompt MoreSamples.preparedOverride,
         {| temperature := Some 0%Q; raw := Some true;
            stop := Some [Js.LF +:+ Js.LF; "```"; "function"; "class"];
            others := [] |})].
Proof.
  apply (template_override_drops_model_options MoreSamples.callOverride
           Sample.world0 MoreSamples.preparedOverride
           (Sample.afterContext Sample.world0)
           "{{{prefix}}}<FILL>{{{suffix}}}").
  - split; reflexivity.
  - reflexivity.
  - discriminate.
  - reflexivity.
  - reflexivity.
Defined.

Lemma last_line_is_its_own_line_below_witness :
  lineBelowCursor MoreSamples.preparedLastLine
  = lineAt (document MoreSamples.callLastLine)
      (line (pos MoreSamples.callLastLine)).
Proof.
  apply (last_line_is_its_own_line_below MoreSamples.callLastLine
           Sample.world0 MoreSamples.preparedLastLine
           (Sample.afterContext Sample.world0)).
  - split; reflexivity.
  - reflexivity.
Defined.

Example legacy_endpoint_sample :
  legacyEndpointSwitches (callEvents MoreSamples.callOpenAi Sample.worldCached)
  = [tt]
  /\ legacyEndpointSwitches (callEvents Sample.call Sample.worldCached) = [].
Proof. split; reflexivity. Qed.

Lemma status_bar_discipline_witness :
  statusBarCalls (callEvents Sample.callCancelled Sample.world0)
  = [EvSetupStatusBar true true; EvStopStatusBarLoading].
Proof.
  apply (status_bar_discipline Sample.callCancelled Sample.world0
           Sample.prepared (Sample.afterContext Sample.world0)).
  split; reflexivity.
Defined.

Example status_bar_left_running_sample :
  statusBarCalls (callEvents Sample.call Sample.world0)
  = [EvSetupStatusBar true true]
  /\ statusBarCalls (callEvents Sample.call Sample.worldCached) = [].
Proof. split; reflexivity. Qed.

Lemma stream_failure_discards_text_witness :
  fst (getTabCompletion Sample.callRefused Sample.world0) = Ok None
  /\ shownMessages (callEvents Sample.callRefused Sample.world0)
     = ["connect ECONNREFUSED"].
Proof.
  apply (stream_failure_discards_text Sample.callRefused Sample.world0
           (Sample.preparedFor Sample.refused)
           (Sample.afterContext Sample.world0) "connect ECONNREFUSED" []
           (false, "g(", true, tt)).
  - split; reflexivity.
  - reflexivity.
  - reflexivity.
  - intros j Hj. reflexivity.
  - reflexivity.
Defined.

Lemma failure_after_stop_unseen_witness :
  fst (getTabCompletion MoreSamples.callStopThenFail Sample.world0)
  = Ok (Some (outcomeOf MoreSamples.callStopThenFail
                (Sample.preparedFor MoreSamples.stopThenFail) "g(1);" false))
  /\ shownMessages (callEvents MoreSamples.callStopThenFail Sample.world0)
     = [].
Proof.
  apply (failure_after_stop_unseen MoreSamples.callStopThenFail Sample.world0
           (Sample.preparedFor MoreSamples.stopThenFail)
           (Sample.afterContext Sample.world0) ["g(1);"; Js.LF]).
  - split; reflexivity.
  - reflexivity.
  - intros j Hj. reflexivity.
  - reflexivity.
Defined.

Lemma failure_after_cancel_unseen_witness :
  fst (getTabCompletion MoreSamples.callCancelThenFail Sample.world0)
  = Ok None
  /\ shownMessages (callEvents MoreSamples.callCancelThenFail Sample.world0)
     = [].
Proof.
  apply (failure_after_cancel_unseen MoreSamples.callCancelThenFail
           Sample.world0 (Sample.preparedFor MoreSamples.cancelThenFail)
           (Sample.afterContext Sample.world0) 1 []
           (false, "g(", true, tt)).
  - split; reflexivity.
  - reflexivity.
  - cbn. lia.
  - reflexivity.
  - intros j Hj. assert (j = 0) as -> by lia. reflexivity.
  - reflexivity.
Defined.

(* ---------------------------------------------------------------------- *)
(** ** llmFromDescription on the sample table                              *)
(* ---------------------------------------------------------------------- *)

Lemma unknown_provider_undefined_witness :
  @Llms.llmFromDescription Llms.sampleClasses (Llms.describe "mistral" Llms.JUndefined None) None
  = None.
Proof.
  apply (proj2 (unknown_provider_undefined (H := Llms.sampleClasses)
                  (Llms.describe "mistral" Llms.JUndefined None) None)).
  intros c Hin. cbn in Hin.
  repeat (destruct Hin as [<-|Hin]; [discriminate|]). destruct Hin.
Defined.

Lemma first_class_in_table_wins_witness :
  Llms.cls <$>
    @Llms.llmFromDescription Llms.sampleClasses (Llms.describe "google-palm" Llms.JUndefined None)
      None
  = Some (@Llms.GooglePalmProxy Llms.sampleClasses).
Proof.
  apply (first_class_in_table_wins (H := Llms.sampleClasses)
           (Llms.describe "google-palm" Llms.JUndefined None) None
           [(@Llms.Anthropic Llms.sampleClasses); (@Llms.FreeTrial Llms.sampleClasses)]
           [(@Llms.GooglePalm Llms.sampleClasses); (@Llms.Llamafile Llms.sampleClasses); (@Llms.Ollama Llms.sampleClasses); (@Llms.Replicate Llms.sampleClasses);
            (@Llms.TextGenWebUI Llms.sampleClasses); (@Llms.Together Llms.sampleClasses); (@Llms.HuggingFaceTGI Llms.sampleClasses);
            (@Llms.HuggingFaceInferenceAPI Llms.sampleClasses); (@Llms.LlamaCpp Llms.sampleClasses); (@Llms.OpenAI Llms.sampleClasses);
            (@Llms.LMStudio Llms.sampleClasses); (@Llms.Gemini Llms.sampleClasses)]
           (@Llms.GooglePalmProxy Llms.sampleClasses)).
  - reflexivity.
  - intros c' Hin. cbn in Hin.
    repeat (destruct Hin as [<-|Hin]; [discriminate|]). destruct Hin.
  - reflexivity.
Defined.

Lemma model_and_max_tokens_always_set_witness :
  Llms.truthy
    (Llms.get (Llms.o_completionOptions (Llms.options Llms.ollamaInstance))
       "model") = true
  /\ Llms.truthy
       (Llms.get (Llms.o_completionOptions (Llms.options Llms.ollamaInstance))
          "maxTokens") = true.
Proof.
  apply (model_and_max_tokens_always_set (H := Llms.sampleClasses)
           (Llms.describe "ollama" (Llms.JString "") None) None
           Llms.ollamaInstance).
  vm_compute. reflexivity.
Defined.

Lemma own_falsy_max_tokens_hides_passed_witness :
  Llms.get (Llms.o_completionOptions (Llms.options Llms.anthropicInstance))
    "maxTokens"
  = Llms.or (Llms.classMaxTokens (Llms.cls Llms.anthropicInstance))
      (Llms.JNumber 1024%Q).
Proof.
  apply (own_falsy_max_tokens_hides_passed (H := Llms.sampleClasses)
           (Llms.describe "anthropic" (Llms.JString "claude-3")
              (Some {["maxTokens" := Llms.JNumber 0%Q]}))
           (Some {["maxTokens" := Llms.JNumber 512%Q]})
           Llms.anthropicInstance
           {["maxTokens" := Llms.JNumber 0%Q]} (Llms.JNumber 0%Q)).
  - vm_compute. reflexivity.
  - reflexivity.
  - vm_compute. reflexivity.
  - reflexivity.
Defined.

Example max_tokens_sample :
  Llms.get (Llms.o_completionOptions (Llms.options Llms.anthropicInstance))
    "maxTokens" = Llms.JNumber 4096%Q
  /\ Llms.get (Llms.o_completionOptions (Llms.options Llms.ollamaInstance))
       "model" = Llms.JString "codellama-7b".
Proof. split; vm_compute; reflexivity. Qed.

Lemma description_options_go_over_passed_witness :
  Llms.o_completionOptions (Llms.options Llms.temperedInstance)
    !! "temperature"
  = Some (Llms.JNumber 0.2%Q).
Proof.
  rewrite (description_options_go_over_passed (H := Llms.sampleClasses)
             (Llms.describe "ollama" (Llms.JString "llama2")
                (Some {["temperature" := Llms.JNumber 0.2%Q]}))
             (Some {["temperature" := Llms.JNumber 0.9%Q;
                     "topK" := Llms.JNumber 40%Q]})
             Llms.temperedInstance "temperature").
  - vm_compute. reflexivity.
  - vm_compute. reflexivity.
  - discriminate.
  - discriminate.
Defined.

Example description_options_sample :
  Llms.get (Llms.o_completionOptions (Llms.options Llms.temperedInstance))
    "temperature" = Llms.JNumber 0.2%Q
  /\ Llms.get (Llms.o_completionOptions (Llms.options Llms.temperedInstance))
       "topK" = Llms.JNumber 40%Q.
Proof. split; vm_compute; reflexivity. Qed.
